(** * ICU-Causal-ML-Evaluation: Scenario B (IPTW weights) and Scenario C
      (calibration back-calculation)

    The scripts [notebooks/scenario_B_iptw_calculation.py] and
    [notebooks/scenario_C_calibration_evaluation.py] are embedded as Rocq
    functions and the properties stated of them are proved.

    - Python's [float] is IEEE 754 binary64, which is what Rocq's primitive
      [float] implements: every arithmetic step below is the one the
      interpreter performs, rounding, infinities and NaN included.
    - A call returns or raises ([result]); a script is a function of the
      world it runs in ([Run]): the clock it reads, the console it prints to,
      the directories and the files.
    - The literal tables of the scripts are arguments of the embedded bodies
      ([calculate_iptw_weights_on], [analyze_calibration_metrics_on]), and the
      scripts are these bodies at the literals, so that properties of all
      inputs can be stated next to properties of the program as it stands. *)

From Stdlib Require Import ZArith List String Ascii Bool Lia Floats.
From Stdlib Require Import Numbers.DecimalString.
Import ListNotations.

Set Warnings "-inexact-float".

Local Open Scope string_scope.
Local Open Scope Z_scope.

(** ** The parts of the Python runtime the scripts call

    [str] of an integer, the two renderings of a float ([repr], used by
    f-strings without a format and by the [csv] writer, and the fixed-point
    [%.Nf]) and [strftime]. *)
Module Py.

(** [str(n)] for an [int]. *)
Definition str_int (n : Z) : string := NilZero.string_of_int (Z.to_int n).

(** ["0" * k] *)
Fixpoint zeros (k : nat) : string :=
  match k with
  | O => EmptyString
  | S k' => String "0" (zeros k')
  end.

(** [s.rjust(w, "0")] *)
Definition rjust0 (w : nat) (s : string) : string :=
  zeros (w - String.length s) ++ s.

Definition sign_str (s : bool) : string := if s then "-" else "".

(** A finite binary64 value is [m * 2^e].  [m * 2^e * 10^k] as the fraction
    [scaled_num m e k / scaled_den e k]. *)
Definition scaled_num (m e k : Z) : Z := m * 2 ^ Z.max e 0 * 10 ^ Z.max k 0.
Definition scaled_den (e k : Z) : Z := 2 ^ Z.max (- e) 0 * 10 ^ Z.max (- k) 0.

(** The integer nearest to [num / den], ties to the even one. *)
Definition round_half_even (num den : Z) : Z :=
  let q := num / den in
  let r := num mod den in
  match 2 * r ?= den with
  | Lt => q
  | Gt => q + 1
  | Eq => if Z.even q then q else q + 1
  end.

(** ['%.pf' % x] and [format(x, '.pf')]: the exact binary value rounded to [p]
    decimals (correct rounding, ties to even), at least one digit before the
    point. *)
Definition format_fixed (p : nat) (x : float) : string :=
  match Prim2SF x with
  | S754_nan => "nan"
  | S754_infinity s => sign_str s ++ "inf"
  | S754_zero s =>
      sign_str s ++ "0" ++ (if Nat.eqb p 0 then "" else "." ++ zeros p)
  | S754_finite s m e =>
      let k := Z.of_nat p in
      let n := round_half_even (scaled_num (Zpos m) e k) (scaled_den e k) in
      let ds := rjust0 (S p) (str_int n) in
      let i := (String.length ds - p)%nat in
      sign_str s ++ substring 0 i ds
        ++ (if Nat.eqb p 0 then "" else "." ++ substring i p ds)
  end.

(** *** [repr(x)]: the shortest decimal string that reads back as [x] *)

(** Position of the decimal point: the least [p] with [m * 2^e < 10^p],
    searched upwards from an under-estimate of the decimal logarithm
    ([0.30102 < log10 2], and [m * 2^e >= 2^(log2 m + e)]). *)
Fixpoint decpt_from (fuel : nat) (m e p : Z) : Z :=
  match fuel with
  | O => p
  | S fuel' =>
      if scaled_num m e (- p) <? scaled_den e (- p) then p
      else decpt_from fuel' m e (p + 1)
  end.

Definition decpt (m e : Z) : Z :=
  decpt_from 8 m e ((Z.log2 m + e) * 30102 / 100000 - 1).

(** The reals that round to [m * 2^e] lie between the midpoints to its two
    neighbours; in units of [2^(e-2)] these are [interval_lo] and
    [interval_hi], and they belong to the interval when [m] is even. *)
Definition interval_lo (m e : Z) : Z :=
  if (m =? 2 ^ 52) && (-1074 <? e) then 4 * m - 1 else 4 * m - 2.
Definition interval_hi (m : Z) : Z := 4 * m + 2.

(** Does the decimal [D * 10^(-k)] read back as [m * 2^e]? *)
Definition rounds_back (m e D k : Z) : bool :=
  let a := D * 10 ^ Z.max (- k) 0 * 2 ^ Z.max (- (e - 2)) 0 in
  let u := 2 ^ Z.max (e - 2) 0 * 10 ^ Z.max k 0 in
  if Z.even m
  then (interval_lo m e * u <=? a) && (a <=? interval_hi m * u)
  else (interval_lo m e * u <? a) && (a <? interval_hi m * u).

(** The [n]-digit decimal that reads back as [m * 2^e], the nearer one when
    both neighbours do. *)
Definition candidate (m e dp n : Z) : option Z :=
  let k := n - dp in
  let num := scaled_num m e k in
  let den := scaled_den e k in
  let lo := num / den in
  let r := num mod den in
  if r =? 0 then Some lo
  else
    let hi := lo + 1 in
    match rounds_back m e lo k, rounds_back m e hi k with
    | true, true =>
        Some match 2 * r ?= den with
             | Lt => lo
             | Gt => hi
             | Eq => if Z.even lo then lo else hi
             end
    | true, false => Some lo
    | false, true => Some hi
    | false, false => None
    end.

(** The first [n] (from 1) that has a candidate; 17 digits always do. *)
Fixpoint shortest_from (fuel : nat) (m e dp n : Z) : Z * Z :=
  match fuel with
  | O => (round_half_even (scaled_num m e (n - dp)) (scaled_den e (n - dp)), n - dp)
  | S fuel' =>
      match candidate m e dp n with
      | Some D => (D, n - dp)
      | None => shortest_from fuel' m e dp (n + 1)
      end
  end.

Fixpoint strip_zeros_rev (l : list ascii) : list ascii :=
  match l with
  | c :: l' => if Ascii.eqb c "0" then strip_zeros_rev l' else l
  | [] => []
  end.

(** [s.rstrip("0")] *)
Definition rstrip0 (s : string) : string :=
  string_of_list_ascii (rev (strip_zeros_rev (rev (list_ascii_of_string s)))).

(** The digits of [repr] and the position of the point relative to them. *)
Definition shortest_digits (m e : Z) : string * Z :=
  let '(D, k) := shortest_from 16 m e (decpt m e) 1 in
  let ds := str_int D in
  (rstrip0 ds, Z.of_nat (String.length ds) - k).

(** Layout of [repr]: exponent form when the point is more than 16 places to
    the right of the first digit or more than 3 to the left. *)
Definition layout_repr (ds : string) (dp : Z) : string :=
  let n := String.length ds in
  if (dp <? -3) || (16 <? dp) then
    substring 0 1 ds
      ++ (if Nat.eqb n 1 then "" else "." ++ substring 1 (n - 1) ds)
      ++ "e" ++ (if dp - 1 <? 0 then "-" else "+")
      ++ rjust0 2 (str_int (Z.abs (dp - 1)))
  else if dp <=? 0 then "0." ++ zeros (Z.to_nat (- dp)) ++ ds
  else if Z.of_nat n <=? dp then ds ++ zeros (Z.to_nat dp - n) ++ ".0"
  else substring 0 (Z.to_nat dp) ds ++ "." ++ substring (Z.to_nat dp) (n - Z.to_nat dp) ds.

(** [repr(x)], which is also [str(x)] and [f"{x}"]. *)
Definition repr_float (x : float) : string :=
  match Prim2SF x with
  | S754_nan => "nan"
  | S754_infinity s => sign_str s ++ "inf"
  | S754_zero s => sign_str s ++ "0.0"
  | S754_finite s m e =>
      let '(ds, dp) := shortest_digits (Zpos m) e in
      sign_str s ++ layout_repr ds dp
  end.

(** *** [datetime] and [strftime] *)

Record datetime := mk_datetime
  { year : Z; month : Z; day : Z; hour : Z; minute : Z; second : Z }.

(** The directives the scripts use.  The fields are zero-padded; a year has
    four digits from 1000 on, which covers every [pandas.Timestamp]. *)
Definition directive (c : ascii) (t : datetime) : string :=
  if Ascii.eqb c "Y" then rjust0 4 (str_int (year t))
  else if Ascii.eqb c "m" then rjust0 2 (str_int (month t))
  else if Ascii.eqb c "d" then rjust0 2 (str_int (day t))
  else if Ascii.eqb c "H" then rjust0 2 (str_int (hour t))
  else if Ascii.eqb c "M" then rjust0 2 (str_int (minute t))
  else if Ascii.eqb c "S" then rjust0 2 (str_int (second t))
  else String "%" (String c EmptyString).

Fixpoint strftime (fmt : string) (t : datetime) : string :=
  match fmt with
  | EmptyString => EmptyString
  | String c rest =>
      if Ascii.eqb c "%" then
        match rest with
        | String d rest' => directive d t ++ strftime rest' t
        | EmptyString => String c EmptyString
        end
      else String c (strftime rest t)
  end.

(** The instants a [pandas.Timestamp] can hold lie in the years 1677..2262;
    the days of a month are not distinguished here. *)
Definition valid_datetime (t : datetime) : bool :=
  (1677 <=? year t) && (year t <=? 2262)
  && (1 <=? month t) && (month t <=? 12)
  && (1 <=? day t) && (day t <=? 31)
  && (0 <=? hour t) && (hour t <=? 23)
  && (0 <=? minute t) && (minute t <=? 59)
  && (0 <=? second t) && (second t <=? 59).

(** ["\n"] and the double quote. *)
Definition nl : string := String (ascii_of_nat 10) EmptyString.
Definition dquote : ascii := ascii_of_nat 34.

(** [sep.join(l)] *)
Fixpoint join (sep : string) (l : list string) : string :=
  match l with
  | [] => EmptyString
  | [s] => s
  | s :: l' => s ++ sep ++ join sep l'
  end.

(** [s * n] *)
Fixpoint str_mul (s : string) (n : nat) : string :=
  match n with
  | O => EmptyString
  | S n' => s ++ str_mul s n'
  end.

(** [os.path.dirname(p)]: what precedes the last ["/"]. *)
Fixpoint dirname (p : string) : string :=
  match p with
  | EmptyString => EmptyString
  | String c rest =>
      if existsb (Ascii.eqb "/") (list_ascii_of_string rest)
      then String c (dirname rest)
      else EmptyString
  end.

End Py.

(** ** Exceptions

    A Python call either returns or raises; a raised exception aborts the
    script. *)
Inductive exn :=
| KeyError (key : string)
| ValueError (msg : string)
| TypeError (msg : string)
| FileNotFoundError (path : string).

Inductive result (A : Type) : Type :=
| Ok (a : A)
| Raise (e : exn).
Arguments Ok {A} a.
Arguments Raise {A} e.

Definition bind {A B : Type} (m : result A) (k : A -> result B) : result B :=
  match m with
  | Ok a => k a
  | Raise e => Raise e
  end.

Declare Scope py_scope.
Delimit Scope py_scope with py.
Notation "x <- m ;; k" := (bind m (fun x => k))
  (at level 61, m at next level, right associativity) : py_scope.
Notation "' p <- m ;; k" := (bind m (fun p => k))
  (at level 61, p pattern, m at next level, right associativity) : py_scope.

(** ** The parts of pandas and numpy the scripts call *)
Module Pd.
Import Py.
Local Open Scope py_scope.

(** A Python object held in a column of dtype [object]. *)
Inductive obj :=
| OInt (n : Z)
| OFloat (x : float)
| OStr (s : string).

(** A column with its dtype.  A list of [int] literals becomes [int64], of
    [float] literals [float64], anything holding a [str] is [object]. *)
Inductive Series :=
| Int64 (v : list Z)
| Float64 (v : list float)
| Bool (v : list bool)
| Object (v : list obj).

Definition size (s : Series) : nat :=
  match s with
  | Int64 v => List.length v
  | Float64 v => List.length v
  | Bool v => List.length v
  | Object v => List.length v
  end.

(** A frame is its columns in insertion order (the index is the default
    [0..n-1] in both scripts and never shown). *)
Definition DataFrame := list (string * Series).

Definition columns (df : DataFrame) : list string := map fst df.

Definition nrows (df : DataFrame) : nat :=
  match df with
  | [] => O
  | (_, s) :: _ => size s
  end.

(** [pd.DataFrame(data)] for a dict of lists. *)
Definition mk_DataFrame (data : list (string * Series)) : result DataFrame :=
  if forallb (fun c => Nat.eqb (size (snd c)) (nrows data)) data
  then Ok data
  else Raise (ValueError "All arrays must be of the same length").

(** [df[key]] *)
Fixpoint getitem (df : DataFrame) (key : string) : result Series :=
  match df with
  | [] => Raise (KeyError key)
  | (k, s) :: df' => if String.eqb k key then Ok s else getitem df' key
  end.

Fixpoint replace_column (df : DataFrame) (key : string) (s : Series) : DataFrame :=
  match df with
  | [] => [(key, s)]
  | (k, s') :: df' =>
      if String.eqb k key then (k, s) :: df' else (k, s') :: replace_column df' key s
  end.

(** [df[key] = s]: a new column goes last, an existing one keeps its place. *)
Definition setitem (df : DataFrame) (key : string) (s : Series) : result DataFrame :=
  if Nat.eqb (size s) (nrows df)
  then Ok (replace_column df key s)
  else Raise (ValueError "Length of values does not match length of index").

(** [df[[k1, ..., kn]]] *)
Fixpoint select (df : DataFrame) (keys : list string) : result DataFrame :=
  match keys with
  | [] => Ok []
  | k :: keys' =>
      s <- getitem df k ;;
      t <- select df keys' ;;
      Ok ((k, s) :: t)
  end.

(** [float(n)]: the nearest binary64. *)
Definition float_of_Z (n : Z) : float :=
  SF2Prim (binary_normalize prec emax n 0 false).

(** The values of a numeric column as floats, as arithmetic with a float
    operand converts them; a column of objects is not numeric. *)
Definition as_float (s : Series) : result (list float) :=
  match s with
  | Float64 v => Ok v
  | Int64 v => Ok (map float_of_Z v)
  | Bool v => Ok (map (fun b : bool => if b then 1%float else 0%float) v)
  | Object _ => Raise (TypeError "unsupported operand type(s)")
  end.

(** [s == k] for an integer [k]. *)
Definition eq_scalar (s : Series) (k : Z) : result (list bool) :=
  match s with
  | Int64 v => Ok (map (fun n => Z.eqb n k) v)
  | Float64 v => Ok (map (fun x => PrimFloat.eqb x (float_of_Z k)) v)
  | Bool v => Ok (map (fun b : bool => Z.eqb (if b then 1 else 0) k) v)
  | Object v =>
      Ok (map (fun o => match o with
                        | OInt n => Z.eqb n k
                        | OFloat x => PrimFloat.eqb x (float_of_Z k)
                        | OStr _ => false
                        end) v)
  end.

(** [k - s] and [k / s] for a scalar [k], [s1 / s2] elementwise.  Division by
    zero is IEEE division: pandas silences numpy's warning and the quotient
    is an infinity or a NaN. *)
Definition rsub (k : float) (s : Series) : result (list float) :=
  v <- as_float s ;; Ok (map (fun x => PrimFloat.sub k x) v).

Definition rdiv (k : float) (s : Series) : result (list float) :=
  v <- as_float s ;; Ok (map (fun x => PrimFloat.div k x) v).

Fixpoint zip_with {A B C : Type} (f : A -> B -> C) (l1 : list A) (l2 : list B) : list C :=
  match l1, l2 with
  | a :: l1', b :: l2' => f a b :: zip_with f l1' l2'
  | _, _ => []
  end.

Definition div (s1 s2 : Series) : result (list float) :=
  v1 <- as_float s1 ;;
  v2 <- as_float s2 ;;
  if Nat.eqb (List.length v1) (List.length v2)
  then Ok (zip_with PrimFloat.div v1 v2)
  else Raise (ValueError "operands could not be broadcast together").

(** An argument of [np.where]: a scalar or an array. *)
Inductive operand :=
| Scalar (x : float)
| Array (v : list float).

Definition broadcast (n : nat) (o : operand) : result (list float) :=
  match o with
  | Scalar x => Ok (repeat x n)
  | Array v =>
      if Nat.eqb (List.length v) n then Ok v
      else Raise (ValueError "operands could not be broadcast together")
  end.

Fixpoint choose (c : list bool) (x y : list float) : list float :=
  match c, x, y with
  | b :: c', a1 :: x', a2 :: y' => (if b then a1 else a2) :: choose c' x' y'
  | _, _, _ => []
  end.

(** [np.where(c, x, y)] *)
Definition np_where (c : list bool) (x y : operand) : result (list float) :=
  xs <- broadcast (List.length c) x ;;
  ys <- broadcast (List.length c) y ;;
  Ok (choose c xs ys).

(** *** [s.sum()]

    pandas replaces every NaN by 0 ([skipna=True]) and hands the array to
    [np.add.reduce], which for a contiguous float64 array is numpy's pairwise
    summation: fewer than 8 elements are added from left to right; up to 128
    elements are added into eight interleaved running sums, block of eight by
    block of eight, the running sums are added as a balanced tree and the
    elements left over are added one by one; a longer array is cut in two at
    a multiple of eight near its middle. *)
Definition is_nan (x : float) : bool := negb (PrimFloat.eqb x x).

Definition nan_to_zero (x : float) : float := if is_nan x then 0%float else x.

Definition sum8 (r : list float) : float :=
  match r with
  | [r0; r1; r2; r3; r4; r5; r6; r7] =>
      (((r0 + r1) + (r2 + r3)) + ((r4 + r5) + (r6 + r7)))%float
  | _ => 0%float
  end.

Fixpoint unrolled (fuel : nat) (r v : list float) : list float * list float :=
  match fuel with
  | O => (r, v)
  | S fuel' =>
      if Nat.leb 8 (List.length v)
      then unrolled fuel' (zip_with PrimFloat.add r (firstn 8 v)) (skipn 8 v)
      else (r, v)
  end.

Definition block_sum (v : list float) : float :=
  let '(r, rest) := unrolled (List.length v) (firstn 8 v) (skipn 8 v) in
  fold_left PrimFloat.add rest (sum8 r).

Fixpoint pairwise_sum (fuel : nat) (v : list float) : float :=
  let n := List.length v in
  if Nat.ltb n 8 then fold_left PrimFloat.add v 0%float
  else if Nat.leb n 128 then block_sum v
  else
    match fuel with
    | O => block_sum v
    | S fuel' =>
        let n2 := (n / 2 - (n / 2) mod 8)%nat in
        (pairwise_sum fuel' (firstn n2 v) + pairwise_sum fuel' (skipn n2 v))%float
    end.

Definition sum_values (v : list float) : float :=
  pairwise_sum (List.length v) (map nan_to_zero v).

Definition sum (s : Series) : result float :=
  match s with
  | Float64 v => Ok (sum_values v)
  | _ => Raise (TypeError "sum of a non-float column is not modelled")
  end.

(** *** [to_csv(f, index=False, float_format=...)] *)

(** The [float_format] argument: absent, or ['%.pf']. *)
Inductive float_format :=
| Default
| Fixed (p : nat).

(** A float cell: a NaN is written as the empty [na_rep]. *)
Definition csv_float (ff : float_format) (x : float) : string :=
  if is_nan x then ""
  else match ff with
       | Default => repr_float x
       | Fixed p => format_fixed p x
       end.

(** The [csv] writer quotes a field that holds the delimiter, the quote
    character or a line break, doubling the quotes inside. *)
Definition needs_quote (s : string) : bool :=
  existsb (fun c => Ascii.eqb c "," || Ascii.eqb c dquote
                    || Ascii.eqb c (ascii_of_nat 10) || Ascii.eqb c (ascii_of_nat 13))
          (list_ascii_of_string s).

Fixpoint double_quotes (s : string) : string :=
  match s with
  | EmptyString => EmptyString
  | String c s' =>
      if Ascii.eqb c dquote then String c (String c (double_quotes s'))
      else String c (double_quotes s')
  end.

Definition csv_field (s : string) : string :=
  if needs_quote s then String dquote (double_quotes s ++ String dquote EmptyString)
  else s.

(** The text of the cells of a column.  [float_format] applies to float
    columns only; a float inside an object column is written by [repr]. *)
Definition csv_cells (ff : float_format) (s : Series) : list string :=
  match s with
  | Int64 v => map str_int v
  | Float64 v => map (csv_float ff) v
  | Bool v => map (fun b : bool => if b then "True" else "False") v
  | Object v =>
      map (fun o => match o with
                    | OInt n => str_int n
                    | OFloat x => csv_float Default x
                    | OStr s => s
                    end) v
  end.

(** Row [i] of the columns. *)
Definition csv_row (cols : list (list string)) (i : nat) : string :=
  join "," (map (fun col => csv_field (nth i col "")) cols).

(** The header line, then one line per row, each closed by a line feed. *)
Definition to_csv (t : DataFrame) (ff : float_format) : string :=
  let cols := map (fun c => csv_cells ff (snd c)) t in
  String.concat "" (map (fun l => l ++ nl)
    (join "," (map csv_field (columns t)) :: map (csv_row cols) (seq 0 (nrows t)))).

End Pd.

(** ** What a run does to the outside

    A script reads the clock once, prints, creates a directory and writes one
    file.  [tabulate] lays a table out for the console; the model records the
    table handed to it and the float format, not the layout of the grid. *)
Inductive printed :=
| Text (s : string)
| Table (t : Pd.DataFrame) (floatfmt : string).

Record world := mk_world
  { clock : Py.datetime;
    console : list printed;
    dirs : list string;
    files : list (string * string) }.

Definition Run (A : Type) : Type := world -> result (A * world).

Definition ret {A : Type} (a : A) : Run A := fun w => Ok (a, w).

Definition bindR {A B : Type} (m : Run A) (k : A -> Run B) : Run B :=
  fun w =>
    match m w with
    | Ok (a, w') => k a w'
    | Raise e => Raise e
    end.

Definition lift {A : Type} (r : result A) : Run A :=
  fun w =>
    match r with
    | Ok a => Ok (a, w)
    | Raise e => Raise e
    end.

Declare Scope run_scope.
Delimit Scope run_scope with run.
Notation "x <- m ;; k" := (bindR m (fun x => k))
  (at level 61, m at next level, right associativity) : run_scope.
Notation "m ;; k" := (bindR m (fun _ => k))
  (at level 61, right associativity) : run_scope.

(** [print(s)] *)
Definition print (s : string) : Run unit :=
  fun w => Ok (tt, mk_world (clock w) (console w ++ [Text s]) (dirs w) (files w)).

(** [print(t.to_markdown(index=False, floatfmt=fmt))] *)
Definition print_markdown (t : Pd.DataFrame) (fmt : string) : Run unit :=
  fun w => Ok (tt, mk_world (clock w) (console w ++ [Table t fmt]) (dirs w) (files w)).

(** [pd.Timestamp.now()] *)
Definition Timestamp_now : Run Py.datetime := fun w => Ok (clock w, w).

(** [os.makedirs(d, exist_ok=True)] *)
Definition makedirs (d : string) : Run unit :=
  fun w =>
    if String.eqb d "" then Raise (FileNotFoundError d)
    else if existsb (String.eqb d) (dirs w) then Ok (tt, w)
    else Ok (tt, mk_world (clock w) (console w) (d :: dirs w) (files w)).

(** [with open(path, 'w') as f: f.write(...)]: the file is created or
    truncated, and holds what was written when the block is left. *)
Definition write_file (path content : string) : Run unit :=
  fun w =>
    if String.eqb (Py.dirname path) "" || existsb (String.eqb (Py.dirname path)) (dirs w)
    then Ok (tt, mk_world (clock w) (console w) (dirs w)
                   ((path, content)
                      :: filter (fun f => negb (String.eqb (fst f) path)) (files w)))
    else Raise (FileNotFoundError path).

Fixpoint read_file (fs : list (string * string)) (path : string) : option string :=
  match fs with
  | [] => None
  | (p, c) :: fs' => if String.eqb p path then Some c else read_file fs' path
  end.

(** ** Scenario B: [scenario_B_iptw_calculation.py] *)
Module ScenarioB.
Import Py Pd.

Definition OUTPUT_FILEPATH : string := "data/scenario_B_results.csv".

(** Assumed marginal probability of treatment P(A=1). *)
Definition P_A1 : float := 0.5%float.

(** The literal [data] of the script. *)
Definition data : list (string * Series) :=
  [ ("Patient ID", Int64 [1; 2; 3; 4]);
    ("A (Treatment)", Int64 [1; 1; 0; 0]);
    ("g (Propensity Score)", Float64 [0.8; 0.4; 0.9; 0.2]%float) ].

(** The four derived columns and the cohort sum (steps 1 and 2, tasks 1 to 3),
    in the order of the script. *)
Definition weights (df : DataFrame) : result (DataFrame * float) :=
  (* df['P(A|L)'] = np.where(df[A] == 1, df[g], 1 - df[g]) *)
  (a <- getitem df "A (Treatment)" ;;
   treated <- eq_scalar a 1 ;;
   g <- getitem df "g (Propensity Score)" ;;
   gv <- as_float g ;;
   one_minus_g <- rsub 1%float g ;;
   p_al <- np_where treated (Array gv) (Array one_minus_g) ;;
   df <- setitem df "P(A|L)" (Float64 p_al) ;;
   (* df['Raw IPTW'] = 1 / df['P(A|L)'] *)
   p_al <- getitem df "P(A|L)" ;;
   raw <- rdiv 1%float p_al ;;
   df <- setitem df "Raw IPTW" (Float64 raw) ;;
   (* df['P(A)'] = np.where(df[A] == 1, P_A1, 1 - P_A1) *)
   a <- getitem df "A (Treatment)" ;;
   treated <- eq_scalar a 1 ;;
   p_a <- np_where treated (Scalar P_A1) (Scalar (1 - P_A1)%float) ;;
   df <- setitem df "P(A)" (Float64 p_a) ;;
   (* df['Stabilized IPTW'] = df['P(A)'] / df['P(A|L)'] *)
   p_a <- getitem df "P(A)" ;;
   p_al <- getitem df "P(A|L)" ;;
   stab <- div p_a p_al ;;
   df <- setitem df "Stabilized IPTW" (Float64 stab) ;;
   (* sum_siptw = df['Stabilized IPTW'].sum() *)
   stab <- getitem df "Stabilized IPTW" ;;
   sum_siptw <- sum stab ;;
   Ok (df, sum_siptw))%py.

(** The columns of the reported table. *)
Definition results_columns : list string :=
  ["Patient ID"; "A (Treatment)"; "g (Propensity Score)"; "Raw IPTW"; "Stabilized IPTW"].

(** The metadata header, as written into the [StringIO] buffer. *)
Definition metadata (now : datetime) : string :=
  "# Results for Scenario B: IPTW and Stabilized IPTW Calculation" ++ nl
  ++ "# ------------------------------------------------------------------" ++ nl
  ++ "# Task: Calculate Raw IPTW, Stabilized IPTW, and the Sum of SIPTW." ++ nl
  ++ "# ASSUMPTION: Marginal Probability P(A=1) = " ++ repr_float P_A1 ++ nl
  ++ "# Columns: Raw IPTW and Stabilized IPTW per patient." ++ nl
  ++ "# Date Generated: " ++ strftime "%Y-%m-%d %H:%M:%S" now ++ nl
  ++ "# ------------------------------------------------------------------" ++ nl.

(** The body of [calculate_iptw_weights], with the literal table as an
    argument. *)
Definition calculate_iptw_weights_on (data : list (string * Series)) : Run unit :=
  (df <- lift (mk_DataFrame data) ;;
   print "--- Scenario B: Initial Data ---" ;;
   print_markdown df "g" ;;
   print ("Assumption: Marginal P(A=1) = " ++ repr_float P_A1) ;;
   print (str_mul "-" 60) ;;
   r <- lift (weights df) ;;
   results_table <- lift (select (fst r) results_columns) ;;
   print "--- IPTW and SIPTW Results per Patient ---" ;;
   print_markdown results_table ".4f" ;;
   print (str_mul "-" 60) ;;
   print ("✅ Final Sum of Stabilized Weights (Cohort Sum of SIPTW): "
          ++ format_fixed 4 (snd r)) ;;
   print (str_mul "-" 60) ;;
   now <- Timestamp_now ;;
   makedirs (dirname OUTPUT_FILEPATH) ;;
   write_file OUTPUT_FILEPATH (metadata now ++ to_csv results_table (Fixed 4)) ;;
   print (nl ++ "✅ Numerical results successfully saved to: " ++ OUTPUT_FILEPATH
          ++ " (Includes metadata header)"))%run.

Definition calculate_iptw_weights : Run unit := calculate_iptw_weights_on data.

End ScenarioB.

(** ** Scenario C: [scenario_C_calibration_evaluation.py] *)
Module ScenarioC.
Import Py Pd.

Definition OUTPUT_FILEPATH : string := "data/scenario_C_results.csv".

(** Input data and assumptions of the script. *)
Definition CITL_BIAS : float := (-0.10)%float.
Definition OBSERVED_RATE : float := 0.1%float.
Definition N_TOTAL : Z := 1000.
Definition CALIBRATION_SLOPE : float := 0.70%float.

(** Task 2: [average_predicted_prob = CITL_BIAS + OBSERVED_RATE]. *)
Definition average_predicted_prob (citl_bias observed_rate : float) : float :=
  (citl_bias + observed_rate)%float.

(** The three texts of the column 'Calculation/Interpretation Logic': two
    literals and, between them, an f-string. *)
Definition slope_interpretation : string :=
  "The ideal slope is 1.0. A slope of 0.70 (< 1.0) indicates **poor refinement** and **overly extreme predictions** (Over-fitting). The model is too confident in its predictions.".

Definition probability_logic (citl_bias observed_rate : float) : string :=
  "Logic: Avg. Predicted Prob. = CITL Bias + Observed Rate. "
  ++ repr_float citl_bias ++ " + " ++ repr_float observed_rate ++ " = "
  ++ format_fixed 2 (average_predicted_prob citl_bias observed_rate)
  ++ ". A result of 0.0 means the model is perfectly calibrated *on average* (CITL=0), as the observed rate is also 0.1. *Note: This is an unusual outcome based on the given inputs.*".

Definition clinical_implication : string :=
  "For individual patients, the model overestimates high risks (e.g., predicting 80% when true risk is 60%) and underestimates low risks. This lack of reliability compromises clinical decision-making based on specific probabilities.".

Definition interpretation_data (citl_bias observed_rate slope : float)
  : list (string * Series) :=
  [ ("Metric",
     Object [OStr "1. Calibration Slope";
             OStr "2. Average Predicted Probability (Calculated)";
             OStr "3. Clinical Implication (Slope 0.70)"]);
    ("Result",
     Object [OFloat slope;
             OFloat (average_predicted_prob citl_bias observed_rate);
             OStr "N/A"]);
    ("Calculation/Interpretation Logic",
     Object [OStr slope_interpretation;
             OStr (probability_logic citl_bias observed_rate);
             OStr clinical_implication]) ].

Definition metadata (citl_bias observed_rate : float) (now : datetime) : string :=
  "# Results for Scenario C: Calibration Evaluation" ++ nl
  ++ "# ------------------------------------------------------------------" ++ nl
  ++ "# Task: Calculate Average Predicted Probability and provide interpretations." ++ nl
  ++ "# Input Values: CITL Bias=" ++ repr_float citl_bias
  ++ ", Observed Rate=" ++ repr_float observed_rate ++ nl
  ++ "# Date Generated: " ++ strftime "%Y-%m-%d %H:%M:%S" now ++ nl
  ++ "# ------------------------------------------------------------------" ++ nl.

(** The body of [analyze_calibration_metrics], with the three numeric
    constants it reads as arguments. *)
Definition analyze_calibration_metrics_on (citl_bias observed_rate slope : float)
  : Run unit :=
  (print "--- Scenario C: Calibration Analysis ---" ;;
   print ("CITL Bias (Given): " ++ repr_float citl_bias) ;;
   print ("Observed Rate (O/N): " ++ repr_float observed_rate
          ++ " (Calculated as 100/1000)") ;;
   print ("Calibration Slope (Given): " ++ repr_float slope ++ nl) ;;
   results_df <- lift (mk_DataFrame (interpretation_data citl_bias observed_rate slope)) ;;
   print "--- Final Calculated Result & Interpretation Summary ---" ;;
   print_markdown results_df ".2f" ;;
   print (str_mul "-" 60) ;;
   now <- Timestamp_now ;;
   makedirs (dirname OUTPUT_FILEPATH) ;;
   write_file OUTPUT_FILEPATH
     (metadata citl_bias observed_rate now ++ to_csv results_df Default) ;;
   print (nl ++ "✅ Numerical results and interpretation saved to: " ++ OUTPUT_FILEPATH
          ++ " (Includes metadata header)"))%run.

Definition analyze_calibration_metrics : Run unit :=
  analyze_calibration_metrics_on CITL_BIAS OBSERVED_RATE CALIBRATION_SLOPE.

End ScenarioC.

(** ** Row-wise reading of Scenario B

    The formulas of section 4.2 of the specification, one row at a time; they
    are compared below with the columns the script computes. *)
Module RowFormulas.
Import ScenarioB.

Definition conditional_probability (a : Z) (g : float) : float :=
  if a =? 1 then g else (1 - g)%float.

Definition raw_weight (a : Z) (g : float) : float :=
  (1 / conditional_probability a g)%float.

Definition marginal_probability (a : Z) : float :=
  if a =? 1 then P_A1 else (1 - P_A1)%float.

Definition stabilized_weight (a : Z) (g : float) : float :=
  (marginal_probability a / conditional_probability a g)%float.

End RowFormulas.

(** The input table of Scenario B for arbitrary rows: integer patient
    identifiers and treatment indicators, float propensity scores. *)
Definition cohort (ids A : list Z) (g : list float) : list (string * Pd.Series) :=
  [ ("Patient ID", Pd.Int64 ids);
    ("A (Treatment)", Pd.Int64 A);
    ("g (Propensity Score)", Pd.Float64 g) ].

(** The float in row [i] of column [col]. *)
Definition float_cell (df : Pd.DataFrame) (col : string) (i : nat) : option float :=
  match Pd.getitem df col with
  | Ok (Pd.Float64 v) => nth_error v i
  | _ => None
  end.

(** The frame [weights] leaves behind on a cohort, and the cohort sum. *)
Definition weighted (ids A : list Z) (g : list float) : Pd.DataFrame :=
  (cohort ids A g ++
  [ ("P(A|L)", Pd.Float64 (Pd.zip_with RowFormulas.conditional_probability A g));
    ("Raw IPTW", Pd.Float64 (Pd.zip_with RowFormulas.raw_weight A g));
    ("P(A)", Pd.Float64 (map RowFormulas.marginal_probability A));
    ("Stabilized IPTW", Pd.Float64 (Pd.zip_with RowFormulas.stabilized_weight A g)) ])%list.

Definition cohort_sum (A : list Z) (g : list float) : float :=
  Pd.sum_values (Pd.zip_with RowFormulas.stabilized_weight A g).

(** ** What a run leaves behind

    The vocabulary of the statements about console and file. *)

(** The table Scenario B prints and writes for a cohort. *)
Definition reported (ids A : list Z) (g : list float) : Pd.DataFrame :=
  [ ("Patient ID", Pd.Int64 ids);
    ("A (Treatment)", Pd.Int64 A);
    ("g (Propensity Score)", Pd.Float64 g);
    ("Raw IPTW", Pd.Float64 (Pd.zip_with RowFormulas.raw_weight A g));
    ("Stabilized IPTW", Pd.Float64 (Pd.zip_with RowFormulas.stabilized_weight A g)) ].

(** What Scenario B prints for a cohort, in order. *)
Definition console_B (ids A : list Z) (g : list float) : list printed :=
  [ Text "--- Scenario B: Initial Data ---";
    Table (cohort ids A g) "g";
    Text "Assumption: Marginal P(A=1) = 0.5";
    Text (Py.str_mul "-" 60);
    Text "--- IPTW and SIPTW Results per Patient ---";
    Table (reported ids A g) ".4f";
    Text (Py.str_mul "-" 60);
    Text ("✅ Final Sum of Stabilized Weights (Cohort Sum of SIPTW): "
          ++ Py.format_fixed 4 (cohort_sum A g));
    Text (Py.str_mul "-" 60);
    Text (Py.nl ++ "✅ Numerical results successfully saved to: data/scenario_B_results.csv (Includes metadata header)") ].

(** What Scenario C prints for its three numeric inputs, in order. *)
Definition console_C (citl_bias observed_rate slope : float) : list printed :=
  [ Text "--- Scenario C: Calibration Analysis ---";
    Text ("CITL Bias (Given): " ++ Py.repr_float citl_bias);
    Text ("Observed Rate (O/N): " ++ Py.repr_float observed_rate
          ++ " (Calculated as 100/1000)");
    Text ("Calibration Slope (Given): " ++ Py.repr_float slope ++ Py.nl);
    Text "--- Final Calculated Result & Interpretation Summary ---";
    Table (ScenarioC.interpretation_data citl_bias observed_rate slope) ".2f";
    Text (Py.str_mul "-" 60);
    Text (Py.nl ++ "✅ Numerical results and interpretation saved to: data/scenario_C_results.csv (Includes metadata header)") ].

(** The world after a script has printed [out] and written [content] to
    [path]: the clock is only read, the directory of [path] exists, the file
    is replaced, other files stay. *)
Definition after_run (w : world) (out : list printed) (path content : string) : world :=
  mk_world (clock w) (console w ++ out)
    (if existsb (String.eqb (Py.dirname path)) (dirs w) then dirs w
     else Py.dirname path :: dirs w)
    ((path, content) :: filter (fun f => negb (String.eqb (fst f) path)) (files w)).

(** The one line of a results file that depends on the clock. *)
Definition timestamp_line (now : Py.datetime) : string :=
  "# Date Generated: " ++ Py.strftime "%Y-%m-%d %H:%M:%S" now.

(** The text of a file from its lines, each closed by a line feed. *)
Definition unlines (l : list string) : string :=
  String.concat "" (map (fun s => s ++ Py.nl) l).

(** The metadata lines of the two results files. *)
Definition metadata_lines_B (now : Py.datetime) : list string :=
  [ "# Results for Scenario B: IPTW and Stabilized IPTW Calculation";
    "# ------------------------------------------------------------------";
    "# Task: Calculate Raw IPTW, Stabilized IPTW, and the Sum of SIPTW.";
    "# ASSUMPTION: Marginal Probability P(A=1) = 0.5";
    "# Columns: Raw IPTW and Stabilized IPTW per patient.";
    timestamp_line now;
    "# ------------------------------------------------------------------" ].

Definition metadata_lines_C (now : Py.datetime) : list string :=
  [ "# Results for Scenario C: Calibration Evaluation";
    "# ------------------------------------------------------------------";
    "# Task: Calculate Average Predicted Probability and provide interpretations.";
    "# Input Values: CITL Bias=-0.1, Observed Rate=0.1";
    timestamp_line now;
    "# ------------------------------------------------------------------" ].

(** A line is a comment when it begins with the hash sign. *)
Definition is_comment (s : string) : bool := String.prefix "#" s.

Definition is_digit (c : ascii) : bool :=
  (48 <=? nat_of_ascii c)%nat && (nat_of_ascii c <=? 57)%nat.

(** [matches pat s]: [s] has the shape [pat], where a [d] of the pattern
    stands for any decimal digit and every other character for itself. *)
Fixpoint matches (pat s : string) : bool :=
  match pat, s with
  | EmptyString, EmptyString => true
  | String p pat', String c s' =>
      (if Ascii.eqb p "d" then is_digit c else Ascii.eqb p c) && matches pat' s'
  | _, _ => false
  end.

(** The values the specification lists for the four-row cohort, read as
    binary64 numbers: conditional probabilities, raw and stabilized weights,
    and the cohort sum. *)
Definition listed_values (df : Pd.DataFrame) (sum_siptw : float) : Prop :=
  Pd.getitem df "P(A|L)" = Ok (Pd.Float64 [0.8; 0.4; 0.1; 0.8]%float)
  /\ Pd.getitem df "Raw IPTW" = Ok (Pd.Float64 [1.25; 2.5; 10.0; 1.25]%float)
  /\ Pd.getitem df "Stabilized IPTW" = Ok (Pd.Float64 [0.625; 1.25; 5.0; 0.625]%float)
  /\ sum_siptw = 7.5%float.

(** The texts of the column 'Calculation/Interpretation Logic' of Scenario C
    for given numeric inputs. *)
Definition interpretation_texts (citl_bias observed_rate slope : float) : result Pd.Series :=
  Pd.getitem (ScenarioC.interpretation_data citl_bias observed_rate slope)
             "Calculation/Interpretation Logic".

(** A field the [csv] writer has put between quotes. *)
Definition quoted (s : string) : string :=
  String Py.dquote (s ++ String Py.dquote EmptyString).

(** A second run of a script, started in the world the first one left, at a
    later reading of the clock. *)
Definition run_twice (script : Run unit) (later : Py.datetime) (w : world)
  : result (world * world) :=
  match script w with
  | Ok (_, w1) =>
      match script (mk_world later (console w1) (dirs w1) (files w1)) with
      | Ok (_, w2) => Ok (w1, w2)
      | Raise e => Raise e
      end
  | Raise e => Raise e
  end.

(** The table part of the two files of the program. *)
Definition header_B : string :=
  "Patient ID,A (Treatment),g (Propensity Score),Raw IPTW,Stabilized IPTW".

Definition rows_B : list string :=
  [ "1,1,0.8000,1.2500,0.6250";
    "2,1,0.4000,2.5000,1.2500";
    "3,0,0.9000,10.0000,5.0000";
    "4,0,0.2000,1.2500,0.6250" ].

Definition header_C : string := "Metric,Result,Calculation/Interpretation Logic".

Definition rows_C : list string :=
  [ "1. Calibration Slope,0.7," ++ ScenarioC.slope_interpretation;
    "2. Average Predicted Probability (Calculated),0.0,"
      ++ quoted (ScenarioC.probability_logic ScenarioC.CITL_BIAS ScenarioC.OBSERVED_RATE);
    "3. Clinical Implication (Slope 0.70),N/A," ++ quoted ScenarioC.clinical_implication ].

(** ** Rounding to binary64, in closed form

    [binary_round_aux] of the Standard Library specifies how every
    operation rounds its exact result [m * 2^e]: the mantissa is shifted right
    until 53 bits are left, rounded to nearest even, and shifted once more if
    the rounding carried.  When [e] is not below the least exponent -1074 the
    shifts depend on [m] alone; the next definitions name them. *)
Module Binary64.
Definition shifted (m : Z) (l : location) : shr_record :=
  Nat.iter (Z.to_nat (Zdigits2 m - 53)) shr_1 (shr_record_of_loc m l).
Definition rounded (m : Z) (l : location) : Z :=
  round_nearest_even (shr_m (shifted m l)) (loc_of_shr_record (shifted m l)).
Definition final_mantissa (m : Z) (l : location) : Z :=
  shr_m (shifted (rounded m l) loc_Exact).
Definition exponent_shift (m : Z) (l : location) : Z :=
  Z.max (Zdigits2 m - 53) 0 + Z.max (Zdigits2 (rounded m l) - 53) 0.
End Binary64.

(** ** Characters of a text

    The vocabulary of the statements about the shape of numbers and rows. *)

(** Every character of [s] satisfies [P]. *)
Fixpoint all_chars (P : ascii -> bool) (s : string) : bool :=
  match s with
  | EmptyString => true
  | String c s' => P c && all_chars P s'
  end.

(** The number of occurrences of [c] in [s]. *)
Fixpoint count_char (c : ascii) (s : string) : nat :=
  match s with
  | EmptyString => O
  | String a s' => ((if Ascii.eqb a c then 1 else 0) + count_char c s')%nat
  end.

(** The characters a number is written with: digits, the sign, the point and
    the letters of [inf] and [nan]. *)
Definition is_number_char (c : ascii) : bool :=
  is_digit c || Ascii.eqb c "-" || Ascii.eqb c "." || Ascii.eqb c "i"
  || Ascii.eqb c "n" || Ascii.eqb c "f" || Ascii.eqb c "a".

(** The frame after the four assignments of the weights step: each column
    replaced where the frame had one of that name, added last otherwise. *)
Definition with_weights (df : Pd.DataFrame) (A : list Z) (g : list float) : Pd.DataFrame :=
  Pd.replace_column
    (Pd.replace_column
       (Pd.replace_column
          (Pd.replace_column df "P(A|L)"
             (Pd.Float64 (Pd.zip_with RowFormulas.conditional_probability A g)))
          "Raw IPTW" (Pd.Float64 (Pd.zip_with RowFormulas.raw_weight A g)))
       "P(A)" (Pd.Float64 (map RowFormulas.marginal_probability A)))
    "Stabilized IPTW" (Pd.Float64 (Pd.zip_with RowFormulas.stabilized_weight A g)).

(** * Properties *)

(** ** Lists of equal length *)
Section Columns.
Import Pd.

Lemma zip_with_length {X Y W : Type} (f : X -> Y -> W) (l1 : list X) (l2 : list Y) :
  List.length l1 = List.length l2 ->
  List.length (zip_with f l1 l2) = List.length l1.
Proof.
  revert l2; induction l1 as [|a l1 IH]; intros [|b l2] H; simpl in *;
    try discriminate; auto.
Qed.

Lemma zip_with_nth_error {X Y W : Type} (f : X -> Y -> W) l1 l2 i a b :
  nth_error l1 i = Some a -> nth_error l2 i = Some b ->
  nth_error (zip_with f l1 l2) i = Some (f a b).
Proof.
  revert l2 i; induction l1 as [|x l1 IH]; intros [|y l2] [|i] Ha Hb;
    simpl in *; try discriminate.
  - now inversion Ha; inversion Hb.
  - now apply IH.
Qed.

Lemma zip_with_map_l {X X' Y W : Type} (f : X' -> Y -> W) (h : X -> X') l1 l2 :
  zip_with f (map h l1) l2 = zip_with (fun a b => f (h a) b) l1 l2.
Proof.
  revert l2; induction l1 as [|x l1 IH]; intros [|y l2]; simpl; auto.
  now rewrite IH.
Qed.

Lemma map_zip_with {X Y W V : Type} (f : X -> Y -> W) (h : W -> V) l1 l2 :
  map h (zip_with f l1 l2) = zip_with (fun a b => h (f a b)) l1 l2.
Proof.
  revert l2; induction l1 as [|x l1 IH]; intros [|y l2]; simpl; auto.
  now rewrite IH.
Qed.

Lemma zip_with_zip_with_r {X Y W V : Type} (f : X -> W -> V) (h : X -> Y -> W) l1 l2 :
  zip_with f l1 (zip_with h l1 l2) = zip_with (fun a b => f a (h a b)) l1 l2.
Proof.
  revert l2; induction l1 as [|x l1 IH]; intros [|y l2]; simpl; auto.
  now rewrite IH.
Qed.

(** [np.where] on the mask [A == 1] is the row-wise choice. *)
Lemma choose_treated (A : list Z) (x y : list float) :
  List.length x = List.length A -> List.length y = List.length A ->
  choose (map (fun n => n =? 1) A) x y
  = zip_with (fun a p => if a =? 1 then fst p else snd p) A (combine x y).
Proof.
  revert x y; induction A as [|a A IH]; intros [|u x] [|v y] Hx Hy;
    simpl in *; try discriminate; auto.
  rewrite IH by lia. reflexivity.
Qed.

Lemma zip_with_combine_map {X W : Type} (f : X -> float * float -> W)
      (h : float -> float) (A : list X) (g : list float) :
  zip_with f A (combine g (map h g)) = zip_with (fun a x => f a (x, h x)) A g.
Proof.
  revert g; induction A as [|a A IH]; intros [|x g]; simpl; auto.
  now rewrite IH.
Qed.

Lemma zip_with_combine_repeat {X W : Type} (f : X -> float * float -> W)
      (u v : float) (A : list X) :
  zip_with f A (combine (repeat u (List.length A)) (repeat v (List.length A)))
  = map (fun a => f a (u, v)) A.
Proof.
  induction A as [|a A IH]; simpl; auto. now rewrite IH.
Qed.

End Columns.

(** ** The scripts, step by step *)
Section Runs.
Import Py Pd.

Lemma repr_P_A1 : repr_float ScenarioB.P_A1 = "0.5".
Proof. vm_compute. reflexivity. Qed.

Lemma dirname_B : dirname ScenarioB.OUTPUT_FILEPATH = "data".
Proof. vm_compute. reflexivity. Qed.

Lemma dirname_C : dirname ScenarioC.OUTPUT_FILEPATH = "data".
Proof. vm_compute. reflexivity. Qed.

(** The vectorised steps compute the row formulas, and none of them raises. *)
Lemma weights_cohort (ids A : list Z) (g : list float) :
  List.length ids = List.length A -> List.length g = List.length A ->
  ScenarioB.weights (cohort ids A g) = Ok (weighted ids A g, cohort_sum A g).
Proof.
  intros Hi Hg.
  unfold ScenarioB.weights, cohort, weighted, cohort_sum.
  cbn [getitem String.eqb Ascii.eqb Bool.eqb bind eq_scalar as_float rsub].
  unfold np_where. cbn [broadcast bind].
  rewrite !length_map, Hg, Nat.eqb_refl. cbn [bind].
  rewrite choose_treated by (now rewrite ?length_map).
  rewrite zip_with_combine_map.
  unfold setitem. cbn [size nrows].
  rewrite zip_with_length by lia. rewrite Hi, Nat.eqb_refl.
  cbn [bind replace_column String.eqb Ascii.eqb Bool.eqb getitem rdiv as_float size nrows].
  rewrite length_map, zip_with_length by lia. rewrite Hi, Nat.eqb_refl.
  cbn [bind replace_column String.eqb Ascii.eqb Bool.eqb getitem rdiv as_float
       size nrows eq_scalar broadcast].
  rewrite !length_map.
  rewrite choose_treated by (now rewrite repeat_length).
  rewrite zip_with_combine_repeat.
  cbn [fst snd].
  rewrite length_map, Hi, Nat.eqb_refl.
  cbn [bind replace_column String.eqb Ascii.eqb Bool.eqb getitem as_float size nrows div].
  rewrite length_map, zip_with_length by lia. rewrite Nat.eqb_refl.
  cbn [bind].
  rewrite zip_with_length by (rewrite length_map, zip_with_length; lia).
  rewrite length_map, Hi, Nat.eqb_refl.
  cbn [bind replace_column String.eqb Ascii.eqb Bool.eqb getitem sum app].
  rewrite map_zip_with, zip_with_map_l, zip_with_zip_with_r.
  reflexivity.
Qed.

Lemma select_weighted (ids A : list Z) (g : list float) :
  select (weighted ids A g) ScenarioB.results_columns = Ok (reported ids A g).
Proof. reflexivity. Qed.

Lemma mk_DataFrame_cohort (ids A : list Z) (g : list float) :
  List.length ids = List.length A -> List.length g = List.length A ->
  mk_DataFrame (cohort ids A g) = Ok (cohort ids A g).
Proof.
  intros Hi Hg. unfold mk_DataFrame, cohort. cbn [forallb nrows size snd].
  now rewrite <- Hi, Hg, <- Hi, Nat.eqb_refl.
Qed.

(** The last two steps of either script: create the directory, write the
    file, and report. *)
Lemma persist (path content line : string) (out : list printed) (w : world) :
  dirname path = "data" ->
  bindR (makedirs (dirname path))
        (fun _ => bindR (write_file path content) (fun _ => print line))
        (mk_world (clock w) (console w ++ out) (dirs w) (files w))
  = Ok (tt, after_run w (out ++ [Text line]) path content).
Proof.
  intros Hd. unfold bindR, makedirs, write_file, print, after_run.
  rewrite Hd. change (String.eqb "data" "") with false.
  cbn [dirs files clock console orb].
  destruct (existsb (String.eqb "data") (dirs w)) eqn:E.
  - cbn [dirs files clock console]. rewrite E.
    cbn [dirs files clock console]. now rewrite app_assoc.
  - cbn [dirs files clock console existsb]. rewrite String.eqb_refl.
    cbn [orb dirs files clock console]. now rewrite app_assoc.
Qed.

(** A run of Scenario B on a cohort returns, having printed [console_B] and
    written the metadata followed by the reported table. *)
Lemma run_B (ids A : list Z) (g : list float) (w : world) :
  List.length ids = List.length A -> List.length g = List.length A ->
  ScenarioB.calculate_iptw_weights_on (cohort ids A g) w
  = Ok (tt, after_run w (console_B ids A g) ScenarioB.OUTPUT_FILEPATH
              (ScenarioB.metadata (clock w)
                 ++ to_csv (reported ids A g) (Fixed 4))).
Proof.
  intros Hi Hg. unfold ScenarioB.calculate_iptw_weights_on.
  rewrite mk_DataFrame_cohort, repr_P_A1 by assumption.
  unfold bindR at 1. cbn [lift].
  unfold bindR at 1. cbn [print].
  unfold bindR at 1. cbn [print_markdown clock console dirs files].
  unfold bindR at 1. cbn [print clock console dirs files].
  unfold bindR at 1. cbn [print clock console dirs files].
  rewrite weights_cohort by assumption.
  unfold bindR at 1. cbn [lift fst snd].
  rewrite select_weighted.
  unfold bindR at 1. cbn [lift].
  unfold bindR at 1. cbn [print clock console dirs files].
  unfold bindR at 1. cbn [print_markdown clock console dirs files].
  unfold bindR at 1. cbn [print clock console dirs files].
  unfold bindR at 1. cbn [print clock console dirs files].
  unfold bindR at 1. cbn [print clock console dirs files].
  unfold bindR at 1. cbn [Timestamp_now clock console dirs files].
  rewrite <- !app_assoc. cbn [app].
  rewrite (persist _ _ _ _ w dirname_B).
  reflexivity.
Qed.

(** A run of Scenario C on any three numeric inputs. *)
Lemma run_C (citl_bias observed_rate slope : float) (w : world) :
  ScenarioC.analyze_calibration_metrics_on citl_bias observed_rate slope w
  = Ok (tt, after_run w (console_C citl_bias observed_rate slope)
              ScenarioC.OUTPUT_FILEPATH
              (ScenarioC.metadata citl_bias observed_rate (clock w)
                 ++ to_csv (ScenarioC.interpretation_data citl_bias observed_rate slope)
                      Default)).
Proof.
  unfold ScenarioC.analyze_calibration_metrics_on.
  unfold bindR at 1. cbn [print].
  unfold bindR at 1. cbn [print clock console dirs files].
  unfold bindR at 1. cbn [print clock console dirs files].
  unfold bindR at 1. cbn [print clock console dirs files].
  replace (mk_DataFrame (ScenarioC.interpretation_data citl_bias observed_rate slope))
    with (Ok (ScenarioC.interpretation_data citl_bias observed_rate slope))
    by reflexivity.
  unfold bindR at 1. cbn [lift].
  unfold bindR at 1. cbn [print clock console dirs files].
  unfold bindR at 1. cbn [print_markdown clock console dirs files].
  unfold bindR at 1. cbn [print clock console dirs files].
  unfold bindR at 1. cbn [Timestamp_now clock console dirs files].
  rewrite <- !app_assoc. cbn [app].
  rewrite (persist _ _ _ _ w dirname_C).
  reflexivity.
Qed.

End Runs.

(** ** Scenario C: the back-calculation *)
Section ScenarioC_facts.
Import Py Pd ScenarioC.

(** C3: the average predicted probability is the binary64 sum
    [citl_bias + observed_rate]; for the inputs of the program, -0.10 and 0.1,
    the two doubles are exact opposites, so their sum is computed without any
    rounding: it is exactly positive zero, it is the value in the 'Result'
    column, and it is written "0.0" in the file and "0.00" in the
    interpretation text. *)
Theorem C3_average_predicted_probability_exact :
  (forall citl_bias observed_rate : float,
      average_predicted_prob citl_bias observed_rate
      = (citl_bias + observed_rate)%float)
  /\ Prim2SF CITL_BIAS = SFopp (Prim2SF OBSERVED_RATE)
  /\ average_predicted_prob CITL_BIAS OBSERVED_RATE = 0%float
  /\ Prim2SF (average_predicted_prob CITL_BIAS OBSERVED_RATE) = S754_zero false
  /\ getitem (interpretation_data CITL_BIAS OBSERVED_RATE CALIBRATION_SLOPE) "Result"
     = Ok (Object [OFloat 0.7%float; OFloat 0%float; OStr "N/A"])
  /\ csv_float Default (average_predicted_prob CITL_BIAS OBSERVED_RATE) = "0.0"
  /\ format_fixed 2 (average_predicted_prob CITL_BIAS OBSERVED_RATE) = "0.00".
Proof.
  split; [reflexivity|].
  repeat split; vm_compute; reflexivity.
Qed.

(** C5, as stated, fails: the text explaining the average predicted
    probability is an f-string, so other numeric inputs give another text. *)
Lemma C5_texts_depend_on_inputs :
  interpretation_texts 0.2%float 0.1%float 0.7%float
  <> interpretation_texts CITL_BIAS OBSERVED_RATE CALIBRATION_SLOPE.
Proof.
  unfold interpretation_texts, interpretation_data.
  cbn [getitem String.eqb Ascii.eqb Bool.eqb].
  intros H.
  assert (E : probability_logic 0.2%float 0.1%float
              = probability_logic CITL_BIAS OBSERVED_RATE) by congruence.
  apply String.eqb_eq in E. vm_compute in E. discriminate E.
Qed.

(** C5, amended: the two texts about the calibration slope are literals, the
    same for all numeric inputs; the text between them interpolates the CITL
    bias and the observed rate (by [repr]) and their sum (to two decimals).
    For the inputs of the program the three texts are the fixed strings
    below, in every run. *)
Theorem C5_interpretation_texts :
  (forall citl_bias observed_rate slope : float,
      interpretation_texts citl_bias observed_rate slope
      = Ok (Object [OStr slope_interpretation;
                    OStr ("Logic: Avg. Predicted Prob. = CITL Bias + Observed Rate. "
                          ++ repr_float citl_bias ++ " + " ++ repr_float observed_rate
                          ++ " = " ++ format_fixed 2 (citl_bias + observed_rate)
                          ++ ". A result of 0.0 means the model is perfectly calibrated *on average* (CITL=0), as the observed rate is also 0.1. *Note: This is an unusual outcome based on the given inputs.*");
                    OStr clinical_implication]))
  /\ interpretation_texts CITL_BIAS OBSERVED_RATE CALIBRATION_SLOPE
     = Ok (Object [OStr "The ideal slope is 1.0. A slope of 0.70 (< 1.0) indicates **poor refinement** and **overly extreme predictions** (Over-fitting). The model is too confident in its predictions.";
                   OStr "Logic: Avg. Predicted Prob. = CITL Bias + Observed Rate. -0.1 + 0.1 = 0.00. A result of 0.0 means the model is perfectly calibrated *on average* (CITL=0), as the observed rate is also 0.1. *Note: This is an unusual outcome based on the given inputs.*";
                   OStr "For individual patients, the model overestimates high risks (e.g., predicting 80% when true risk is 60%) and underestimates low risks. This lack of reliability compromises clinical decision-making based on specific probabilities."])
  /\ (forall w : world,
        exists w' : world,
          analyze_calibration_metrics w = Ok (tt, w')
          /\ In (Table (interpretation_data CITL_BIAS OBSERVED_RATE CALIBRATION_SLOPE) ".2f")
                (console w')).
Proof.
  split; [reflexivity|].
  split; [vm_compute; reflexivity|].
  intros w. eexists. split.
  - unfold analyze_calibration_metrics. apply run_C.
  - unfold after_run. cbn [console]. apply in_or_app. right.
    unfold console_C. cbn [In]. auto 10.
Qed.

End ScenarioC_facts.

(** ** Scenario B: the four-row cohort of the program *)
Section ScenarioB_program.
Import Py Pd ScenarioB.

Lemma weights_program :
  bind (mk_DataFrame data) weights
  = Ok (weighted [1; 2; 3; 4] [1; 1; 0; 0] [0.8; 0.4; 0.9; 0.2]%float,
        cohort_sum [1; 1; 0; 0] [0.8; 0.4; 0.9; 0.2]%float).
Proof.
  change data with (cohort [1; 2; 3; 4] [1; 1; 0; 0] [0.8; 0.4; 0.9; 0.2]%float).
  rewrite mk_DataFrame_cohort by reflexivity. cbn [bind].
  apply weights_cohort; reflexivity.
Qed.

Lemma float_neq (x y : float) : Prim2SF x <> Prim2SF y -> x <> y.
Proof. intros H E. apply H. now rewrite E. Qed.

(** C2, as stated, fails: read as binary64 numbers, the listed values are not
    the computed ones.  The computed cohort sum, for one, is not 7.5: in row 3
    [1 - 0.9] is not [0.1], and the two weights and the sum inherit the
    difference. *)
Lemma C2_listed_values_not_exact :
  ~ exists df s, bind (mk_DataFrame data) weights = Ok (df, s) /\ listed_values df s.
Proof.
  intros (df & s & H & _ & _ & _ & Hs).
  rewrite weights_program in H. injection H as _ Hsum.
  rewrite <- Hsum in Hs. revert Hs. apply float_neq. vm_compute. discriminate.
Qed.

(** C2, amended: for the four-row cohort the computed values of rows 1, 2
    and 4 are exactly the listed ones; in row 3 the conditional probability is
    0.09999999999999998, the raw weight 10.000000000000002 and the stabilized
    weight 5.000000000000001, and the cohort sum is 7.500000000000001.  At the
    four decimals the program reports, every value is the listed one:
    0.8000, 0.4000, 0.1000, 0.8000; 1.2500, 2.5000, 10.0000, 1.2500; 0.6250,
    1.2500, 5.0000, 0.6250; sum 7.5000. *)
Theorem C2_cohort_values :
  exists df s,
    bind (mk_DataFrame data) weights = Ok (df, s)
    /\ getitem df "P(A|L)"
       = Ok (Float64 [0.8; 0.4; 0.09999999999999998; 0.8]%float)
    /\ getitem df "Raw IPTW"
       = Ok (Float64 [1.25; 2.5; 10.000000000000002; 1.25]%float)
    /\ getitem df "Stabilized IPTW"
       = Ok (Float64 [0.625; 1.25; 5.000000000000001; 0.625]%float)
    /\ s = 7.500000000000001%float
    /\ csv_cells (Fixed 4) (Float64 [0.8; 0.4; 0.09999999999999998; 0.8]%float)
       = ["0.8000"; "0.4000"; "0.1000"; "0.8000"]
    /\ csv_cells (Fixed 4) (Float64 [1.25; 2.5; 10.000000000000002; 1.25]%float)
       = ["1.2500"; "2.5000"; "10.0000"; "1.2500"]
    /\ csv_cells (Fixed 4) (Float64 [0.625; 1.25; 5.000000000000001; 0.625]%float)
       = ["0.6250"; "1.2500"; "5.0000"; "0.6250"]
    /\ format_fixed 4 s = "7.5000".
Proof.
  do 2 eexists. split; [apply weights_program|].
  repeat split; vm_compute; reflexivity.
Qed.

End ScenarioB_program.

(** ** Strings, lines and the timestamp *)
Section Text.
Import Py.

Lemma append_assoc (a b c : string) : (a ++ b) ++ c = a ++ b ++ c.
Proof. induction a as [|x a IH]; simpl; [reflexivity | now rewrite IH]. Qed.

Lemma append_nil_r (a : string) : a ++ "" = a.
Proof. induction a as [|x a IH]; simpl; [reflexivity | now rewrite IH]. Qed.

Lemma concat_cons (x : string) (l : list string) :
  String.concat "" (x :: l) = x ++ String.concat "" l.
Proof. destruct l; simpl; [now rewrite append_nil_r | reflexivity]. Qed.

Lemma unlines_cons (s : string) (l : list string) :
  unlines (s :: l) = s ++ nl ++ unlines l.
Proof.
  unfold unlines. cbn [map]. now rewrite concat_cons, append_assoc.
Qed.

Lemma unlines_app (l1 l2 : list string) :
  unlines (l1 ++ l2) = unlines l1 ++ unlines l2.
Proof.
  induction l1 as [|s l1 IH]; [reflexivity|].
  cbn [app]. now rewrite !unlines_cons, IH, !append_assoc.
Qed.

Lemma matches_app (p1 p2 s1 s2 : string) :
  matches p1 s1 = true -> matches p2 s2 = true ->
  matches (p1 ++ p2) (s1 ++ s2) = true.
Proof.
  revert s1; induction p1 as [|p p1 IH]; intros [|c s1] H1 H2;
    simpl in *; try discriminate; auto.
  apply andb_true_iff in H1 as [Hc H1]. now rewrite Hc, IH.
Qed.

(** A property checked on every integer of a range holds on the range. *)
Lemma checked_range (P : Z -> bool) (lo : Z) (k : nat) :
  forallb P (map (fun i => lo + Z.of_nat i) (seq 0 k)) = true ->
  forall n, lo <= n < lo + Z.of_nat k -> P n = true.
Proof.
  intros H n Hn. rewrite forallb_forall in H. apply H.
  apply in_map_iff. exists (Z.to_nat (n - lo)). split; [lia|].
  apply in_seq. lia.
Qed.

Lemma two_digits (n : Z) :
  0 <= n <= 99 -> matches "dd" (rjust0 2 (str_int n)) = true.
Proof.
  intros H.
  apply (checked_range (fun n => matches "dd" (rjust0 2 (str_int n))) 0 100);
    [vm_compute; reflexivity | lia].
Qed.

Lemma four_digits (n : Z) :
  1677 <= n <= 2262 -> matches "dddd" (rjust0 4 (str_int n)) = true.
Proof.
  intros H.
  apply (checked_range (fun n => matches "dddd" (rjust0 4 (str_int n))) 1677 586);
    [vm_compute; reflexivity | lia].
Qed.

Lemma strftime_fields (t : datetime) :
  strftime "%Y-%m-%d %H:%M:%S" t
  = rjust0 4 (str_int (year t)) ++ "-" ++ rjust0 2 (str_int (month t)) ++ "-"
    ++ rjust0 2 (str_int (day t)) ++ " " ++ rjust0 2 (str_int (hour t)) ++ ":"
    ++ rjust0 2 (str_int (minute t)) ++ ":" ++ rjust0 2 (str_int (second t)).
Proof.
  cbn [strftime Ascii.eqb Bool.eqb directive append].
  now rewrite append_nil_r.
Qed.

(** The timestamp of a valid instant reads YYYY-MM-DD HH:MM:SS. *)
Lemma timestamp_shape (t : datetime) :
  valid_datetime t = true ->
  matches "dddd-dd-dd dd:dd:dd" (strftime "%Y-%m-%d %H:%M:%S" t) = true.
Proof.
  unfold valid_datetime. rewrite !andb_true_iff, !Z.leb_le.
  intros H. rewrite strftime_fields.
  change "dddd-dd-dd dd:dd:dd"
    with ("dddd" ++ "-" ++ "dd" ++ "-" ++ "dd" ++ " " ++ "dd" ++ ":" ++ "dd" ++ ":" ++ "dd").
  repeat (apply matches_app;
          [first [apply four_digits; lia | apply two_digits; lia | reflexivity]|]).
  apply two_digits; lia.
Qed.

End Text.

(** ** The files and the console *)
Section Output.
Import Py Pd.

Lemma read_after_run (w : world) (out : list printed) (path content : string) :
  read_file (files (after_run w out path content)) path = Some content.
Proof. unfold after_run. cbn [files read_file]. now rewrite String.eqb_refl. Qed.

Lemma metadata_B_lines (now : datetime) :
  ScenarioB.metadata now = unlines (metadata_lines_B now).
Proof.
  unfold ScenarioB.metadata, metadata_lines_B, timestamp_line.
  rewrite repr_P_A1, !unlines_cons, !append_assoc.
  reflexivity.
Qed.

Lemma repr_inputs_C :
  repr_float ScenarioC.CITL_BIAS = "-0.1" /\ repr_float ScenarioC.OBSERVED_RATE = "0.1".
Proof. split; vm_compute; reflexivity. Qed.

Lemma metadata_C_lines (now : datetime) :
  ScenarioC.metadata ScenarioC.CITL_BIAS ScenarioC.OBSERVED_RATE now
  = unlines (metadata_lines_C now).
Proof.
  unfold ScenarioC.metadata, metadata_lines_C, timestamp_line.
  destruct repr_inputs_C as [-> ->].
  rewrite !unlines_cons, !append_assoc.
  reflexivity.
Qed.

Lemma to_csv_B :
  to_csv (reported [1; 2; 3; 4] [1; 1; 0; 0] [0.8; 0.4; 0.9; 0.2]%float) (Fixed 4)
  = unlines (header_B :: rows_B).
Proof. vm_compute. reflexivity. Qed.

Lemma to_csv_C :
  to_csv (ScenarioC.interpretation_data ScenarioC.CITL_BIAS ScenarioC.OBSERVED_RATE
            ScenarioC.CALIBRATION_SLOPE) Default
  = unlines (header_C :: rows_C).
Proof. vm_compute. reflexivity. Qed.

(** The complete run of each program. *)
Lemma run_B_program (w : world) :
  ScenarioB.calculate_iptw_weights w
  = Ok (tt, after_run w (console_B [1; 2; 3; 4] [1; 1; 0; 0] [0.8; 0.4; 0.9; 0.2]%float)
              ScenarioB.OUTPUT_FILEPATH
              (unlines (metadata_lines_B (clock w) ++ header_B :: rows_B)%list)).
Proof.
  unfold ScenarioB.calculate_iptw_weights.
  change ScenarioB.data with (cohort [1; 2; 3; 4] [1; 1; 0; 0] [0.8; 0.4; 0.9; 0.2]%float).
  rewrite run_B by reflexivity.
  now rewrite metadata_B_lines, to_csv_B, unlines_app.
Qed.

Lemma run_C_program (w : world) :
  ScenarioC.analyze_calibration_metrics w
  = Ok (tt, after_run w (console_C ScenarioC.CITL_BIAS ScenarioC.OBSERVED_RATE
                           ScenarioC.CALIBRATION_SLOPE)
              ScenarioC.OUTPUT_FILEPATH
              (unlines (metadata_lines_C (clock w) ++ header_C :: rows_C)%list)).
Proof.
  unfold ScenarioC.analyze_calibration_metrics.
  rewrite run_C.
  now rewrite metadata_C_lines, to_csv_C, unlines_app.
Qed.

End Output.

(** ** Determinism and the format of the results files *)
Section Files.
Import Py Pd.

Lemma run_twice_after (script : Run unit) (out : list printed) (path : string)
      (content : datetime -> string) :
  (forall w, script w = Ok (tt, after_run w out path (content (clock w)))) ->
  forall (w : world) (later : datetime),
  exists w1 w2,
    run_twice script later w = Ok (w1, w2)
    /\ read_file (files w1) path = Some (content (clock w))
    /\ read_file (files w2) path = Some (content later)
    /\ console w1 = (console w ++ out)%list
    /\ console w2 = (console w1 ++ out)%list.
Proof.
  intros H w later.
  exists (after_run w out path (content (clock w))).
  exists (after_run (mk_world later
                       (console (after_run w out path (content (clock w))))
                       (dirs (after_run w out path (content (clock w))))
                       (files (after_run w out path (content (clock w)))))
                    out path (content later)).
  unfold run_twice. rewrite H, H. cbn [clock].
  repeat split; try apply read_after_run; reflexivity.
Qed.

(** C6: a second run of Scenario B or of Scenario C, whatever the clock shows
    by then, writes a file with the same lines as the first run except for
    the timestamp line, and prints the same console output: the lines before
    and after the timestamp and the printed items do not depend on the run. *)
Theorem C6_two_runs_differ_only_in_timestamp :
  exists (outB outC : list printed) (beforeB afterB beforeC afterC : list string),
    forall (w : world) (later : datetime),
      (exists w1 w2,
          run_twice ScenarioB.calculate_iptw_weights later w = Ok (w1, w2)
          /\ read_file (files w1) ScenarioB.OUTPUT_FILEPATH
             = Some (unlines (beforeB ++ timestamp_line (clock w) :: afterB))
          /\ read_file (files w2) ScenarioB.OUTPUT_FILEPATH
             = Some (unlines (beforeB ++ timestamp_line later :: afterB))
          /\ console w1 = (console w ++ outB)%list
          /\ console w2 = (console w1 ++ outB)%list)
      /\ (exists w1 w2,
          run_twice ScenarioC.analyze_calibration_metrics later w = Ok (w1, w2)
          /\ read_file (files w1) ScenarioC.OUTPUT_FILEPATH
             = Some (unlines (beforeC ++ timestamp_line (clock w) :: afterC))
          /\ read_file (files w2) ScenarioC.OUTPUT_FILEPATH
             = Some (unlines (beforeC ++ timestamp_line later :: afterC))
          /\ console w1 = (console w ++ outC)%list
          /\ console w2 = (console w1 ++ outC)%list).
Proof.
  exists (console_B [1; 2; 3; 4] [1; 1; 0; 0] [0.8; 0.4; 0.9; 0.2]%float).
  exists (console_C ScenarioC.CITL_BIAS ScenarioC.OBSERVED_RATE ScenarioC.CALIBRATION_SLOPE).
  exists (firstn 5 (metadata_lines_B (mk_datetime 0 0 0 0 0 0))).
  exists (skipn 6 (metadata_lines_B (mk_datetime 0 0 0 0 0 0)) ++ header_B :: rows_B)%list.
  exists (firstn 4 (metadata_lines_C (mk_datetime 0 0 0 0 0 0))).
  exists (skipn 5 (metadata_lines_C (mk_datetime 0 0 0 0 0 0)) ++ header_C :: rows_C)%list.
  intros w later. split.
  - apply (run_twice_after ScenarioB.calculate_iptw_weights _ _
             (fun t => unlines (_ ++ timestamp_line t :: _))).
    intros w0. rewrite run_B_program. reflexivity.
  - apply (run_twice_after ScenarioC.analyze_calibration_metrics _ _
             (fun t => unlines (_ ++ timestamp_line t :: _))).
    intros w0. rewrite run_C_program. reflexivity.
Qed.

(** C7: each results file is, line by line, the metadata lines, every one a
    comment beginning with the hash sign and one of them the generation
    timestamp in the form YYYY-MM-DD HH:MM:SS, then the header row of column
    names, then the comma-separated data rows; floats have four decimals in
    Scenario B and their shortest [repr] in Scenario C. *)
Theorem C7_results_file_format (w : world) :
  valid_datetime (clock w) = true ->
  exists wB wC ts,
    ScenarioB.calculate_iptw_weights w = Ok (tt, wB)
    /\ ScenarioC.analyze_calibration_metrics w = Ok (tt, wC)
    /\ read_file (files wB) ScenarioB.OUTPUT_FILEPATH
       = Some (unlines (metadata_lines_B (clock w) ++ header_B :: rows_B)%list)
    /\ read_file (files wC) ScenarioC.OUTPUT_FILEPATH
       = Some (unlines (metadata_lines_C (clock w) ++ header_C :: rows_C)%list)
    /\ forallb is_comment (metadata_lines_B (clock w)) = true
    /\ forallb is_comment (metadata_lines_C (clock w)) = true
    /\ In ("# Date Generated: " ++ ts) (metadata_lines_B (clock w))
    /\ In ("# Date Generated: " ++ ts) (metadata_lines_C (clock w))
    /\ matches "dddd-dd-dd dd:dd:dd" ts = true
    /\ header_B = join "," ScenarioB.results_columns
    /\ rows_B = [ join "," ["1"; "1"; "0.8000"; "1.2500"; "0.6250"];
                  join "," ["2"; "1"; "0.4000"; "2.5000"; "1.2500"];
                  join "," ["3"; "0"; "0.9000"; "10.0000"; "5.0000"];
                  join "," ["4"; "0"; "0.2000"; "1.2500"; "0.6250"] ]
    /\ map (csv_float (Fixed 4)) [0.8; 0.4; 0.9; 0.2]%float
       = ["0.8000"; "0.4000"; "0.9000"; "0.2000"]
    /\ header_C = join "," (columns (ScenarioC.interpretation_data ScenarioC.CITL_BIAS
                                       ScenarioC.OBSERVED_RATE ScenarioC.CALIBRATION_SLOPE))
    /\ rows_C = [ join "," ["1. Calibration Slope";
                            repr_float ScenarioC.CALIBRATION_SLOPE;
                            ScenarioC.slope_interpretation];
                  join "," ["2. Average Predicted Probability (Calculated)";
                            repr_float (ScenarioC.CITL_BIAS + ScenarioC.OBSERVED_RATE)%float;
                            quoted (ScenarioC.probability_logic ScenarioC.CITL_BIAS
                                      ScenarioC.OBSERVED_RATE)];
                  join "," ["3. Clinical Implication (Slope 0.70)"; "N/A";
                            quoted ScenarioC.clinical_implication] ]
    /\ repr_float ScenarioC.CALIBRATION_SLOPE = "0.7"
    /\ repr_float (ScenarioC.CITL_BIAS + ScenarioC.OBSERVED_RATE)%float = "0.0".
Proof.
  intros Hv.
  eexists. eexists. exists (strftime "%Y-%m-%d %H:%M:%S" (clock w)).
  split; [apply run_B_program|].
  split; [apply run_C_program|].
  split; [apply read_after_run|].
  split; [apply read_after_run|].
  split; [reflexivity|].
  split; [reflexivity|].
  split; [unfold metadata_lines_B, timestamp_line; cbn [In]; auto 10|].
  split; [unfold metadata_lines_C, timestamp_line; cbn [In]; auto 10|].
  split; [now apply timestamp_shape|].
  repeat split; vm_compute; reflexivity.
Qed.

(** A run of the program on the first second of 2025. *)
Lemma C7_results_file_format_witness :
  valid_datetime (mk_datetime 2025 1 1 0 0 0) = true
  /\ exists wB wC ts,
    ScenarioB.calculate_iptw_weights (mk_world (mk_datetime 2025 1 1 0 0 0) [] [] [])
    = Ok (tt, wB)
    /\ ScenarioC.analyze_calibration_metrics (mk_world (mk_datetime 2025 1 1 0 0 0) [] [] [])
       = Ok (tt, wC)
    /\ read_file (files wB) ScenarioB.OUTPUT_FILEPATH
       = Some (unlines (metadata_lines_B (mk_datetime 2025 1 1 0 0 0) ++ header_B :: rows_B)%list)
    /\ read_file (files wC) ScenarioC.OUTPUT_FILEPATH
       = Some (unlines (metadata_lines_C (mk_datetime 2025 1 1 0 0 0) ++ header_C :: rows_C)%list)
    /\ In ("# Date Generated: " ++ ts) (metadata_lines_B (mk_datetime 2025 1 1 0 0 0))
    /\ matches "dddd-dd-dd dd:dd:dd" ts = true.
Proof.
  split; [reflexivity|].
  destruct (C7_results_file_format (mk_world (mk_datetime 2025 1 1 0 0 0) [] [] []))
    as (wB & wC & ts & HB & HC & FB & FC & _ & _ & IB & _ & M & _);
    [reflexivity|].
  exists wB, wC, ts. auto 10.
Defined.

End Files.

(** ** The reported table of Scenario B *)
Section Reported.
Import Py Pd RowFormulas.

Lemma float_cell_raw (ids A : list Z) (g : list float) (i : nat) (a : Z) (x : float) :
  nth_error A i = Some a -> nth_error g i = Some x ->
  float_cell (reported ids A g) "Raw IPTW" i = Some (raw_weight a x).
Proof.
  intros Ha Hx. unfold float_cell, reported.
  cbn [getitem String.eqb Ascii.eqb Bool.eqb]. now apply zip_with_nth_error.
Qed.

Lemma float_cell_stabilized (ids A : list Z) (g : list float) (i : nat) (a : Z) (x : float) :
  nth_error A i = Some a -> nth_error g i = Some x ->
  float_cell (reported ids A g) "Stabilized IPTW" i = Some (stabilized_weight a x).
Proof.
  intros Ha Hx. unfold float_cell, reported.
  cbn [getitem String.eqb Ascii.eqb Bool.eqb]. now apply zip_with_nth_error.
Qed.

Lemma printed_reported (ids A : list Z) (g : list float) (w : world) (path content : string) :
  In (Table (reported ids A g) ".4f")
     (console (after_run w (console_B ids A g) path content)).
Proof.
  unfold after_run. cbn [console]. apply in_or_app. right.
  unfold console_B. cbn [In]. auto 10.
Qed.

(** C10: for a cohort of any rows, the table Scenario B prints and writes is
    the selection of the five columns Patient ID, A (Treatment),
    g (Propensity Score), Raw IPTW and Stabilized IPTW, in that order; the
    three input columns are the input lists as given, the weights of row [i]
    are those of the [i]-th input row, and the columns P(A|L) and P(A) are in
    the working frame but not in the reported table. *)
Theorem C10_reported_table (ids A : list Z) (g : list float) (w : world) :
  List.length ids = List.length A -> List.length g = List.length A ->
  exists df s w',
    ScenarioB.weights (cohort ids A g) = Ok (df, s)
    /\ select df ScenarioB.results_columns = Ok (reported ids A g)
    /\ ScenarioB.calculate_iptw_weights_on (cohort ids A g) w = Ok (tt, w')
    /\ In (Table (reported ids A g) ".4f") (console w')
    /\ read_file (files w') ScenarioB.OUTPUT_FILEPATH
       = Some (ScenarioB.metadata (clock w) ++ to_csv (reported ids A g) (Fixed 4))
    /\ columns (reported ids A g)
       = ["Patient ID"; "A (Treatment)"; "g (Propensity Score)"; "Raw IPTW";
          "Stabilized IPTW"]
    /\ getitem (reported ids A g) "Patient ID" = Ok (Int64 ids)
    /\ getitem (reported ids A g) "A (Treatment)" = Ok (Int64 A)
    /\ getitem (reported ids A g) "g (Propensity Score)" = Ok (Float64 g)
    /\ (forall i a x,
           nth_error A i = Some a -> nth_error g i = Some x ->
           float_cell (reported ids A g) "Raw IPTW" i
           = Some (1 / (if (a =? 1)%Z then x else 1 - x))%float
           /\ float_cell (reported ids A g) "Stabilized IPTW" i
              = Some ((if (a =? 1)%Z then 0.5 else 1 - 0.5)
                      / (if (a =? 1)%Z then x else 1 - x))%float)
    /\ columns df
       = ["Patient ID"; "A (Treatment)"; "g (Propensity Score)"; "P(A|L)"; "Raw IPTW";
          "P(A)"; "Stabilized IPTW"]
    /\ ~ In "P(A|L)" (columns (reported ids A g))
    /\ ~ In "P(A)" (columns (reported ids A g)).
Proof.
  intros Hi Hg.
  exists (weighted ids A g), (cohort_sum A g). eexists.
  split; [now apply weights_cohort|].
  split; [apply select_weighted|].
  split; [now apply run_B|].
  split; [apply printed_reported|].
  split; [apply read_after_run|].
  split; [reflexivity|].
  split; [reflexivity|].
  split; [reflexivity|].
  split; [reflexivity|].
  split.
  { intros i a x Ha Hx. split.
    - now apply float_cell_raw.
    - now apply float_cell_stabilized. }
  split; [reflexivity|].
  split; cbn; intros H; repeat destruct H as [H|H]; try discriminate H; auto.
Qed.

(** The cohort of the program. *)
Lemma C10_reported_table_witness :
  (List.length [1; 2; 3; 4] = List.length [1; 1; 0; 0]
   /\ List.length [0.8; 0.4; 0.9; 0.2]%float = List.length [1; 1; 0; 0])
  /\ exists df s w',
      ScenarioB.weights ScenarioB.data = Ok (df, s)
      /\ select df ScenarioB.results_columns
         = Ok (reported [1; 2; 3; 4] [1; 1; 0; 0] [0.8; 0.4; 0.9; 0.2]%float)
      /\ ScenarioB.calculate_iptw_weights (mk_world (mk_datetime 2025 1 1 0 0 0) [] [] [])
         = Ok (tt, w')
      /\ In (Table (reported [1; 2; 3; 4] [1; 1; 0; 0] [0.8; 0.4; 0.9; 0.2]%float) ".4f")
            (console w').
Proof.
  split; [split; reflexivity|].
  destruct (C10_reported_table [1; 2; 3; 4] [1; 1; 0; 0] [0.8; 0.4; 0.9; 0.2]%float
              (mk_world (mk_datetime 2025 1 1 0 0 0) [] [] []) eq_refl eq_refl)
    as (df & s & w' & H1 & H2 & H3 & H4 & _).
  exists df, s, w'. auto.
Defined.

(** C1, as stated, fails: on a treated row with propensity score 0 the
    program raises nothing; it completes and writes "inf" for both weights. *)
Lemma C1_boundary_score_is_not_rejected :
  exists w',
    ScenarioB.calculate_iptw_weights_on (cohort [1] [1] [0%float])
      (mk_world (mk_datetime 2025 1 1 0 0 0) [] [] []) = Ok (tt, w')
    /\ read_file (files w') ScenarioB.OUTPUT_FILEPATH
       = Some (unlines (metadata_lines_B (mk_datetime 2025 1 1 0 0 0)
                          ++ [header_B; "1,1,0.0000,inf,inf"])).
Proof.
  eexists. split.
  - apply run_B; reflexivity.
  - rewrite read_after_run, metadata_B_lines, unlines_app. reflexivity.
Qed.

(** C1, amended: Scenario B has no error path for the propensity score.  On
    a cohort of any rows the run completes; a row whose score is 0 when
    treated, or 1 when untreated, has conditional probability 0 and gets the
    raw and the stabilized weight [infinity], which are printed and written
    as "inf". *)
Theorem C1_boundary_scores_give_infinity
        (ids A : list Z) (g : list float) (w : world) (i : nat) (a : Z) (x : float) :
  List.length ids = List.length A -> List.length g = List.length A ->
  nth_error A i = Some a -> nth_error g i = Some x ->
  (a = 1 /\ x = 0%float) \/ (a <> 1 /\ x = 1%float) ->
  exists w',
    ScenarioB.calculate_iptw_weights_on (cohort ids A g) w = Ok (tt, w')
    /\ In (Table (reported ids A g) ".4f") (console w')
    /\ read_file (files w') ScenarioB.OUTPUT_FILEPATH
       = Some (ScenarioB.metadata (clock w) ++ to_csv (reported ids A g) (Fixed 4))
    /\ conditional_probability a x = 0%float
    /\ float_cell (reported ids A g) "Raw IPTW" i = Some infinity
    /\ float_cell (reported ids A g) "Stabilized IPTW" i = Some infinity
    /\ csv_float (Fixed 4) infinity = "inf".
Proof.
  intros Hi Hg Ha Hx Hb.
  eexists.
  split; [now apply run_B|].
  split; [apply printed_reported|].
  split; [apply read_after_run|].
  rewrite (float_cell_raw ids A g i a x Ha Hx),
          (float_cell_stabilized ids A g i a x Ha Hx).
  unfold raw_weight, stabilized_weight, marginal_probability, conditional_probability.
  destruct Hb as [[-> ->] | [Hn ->]].
  - repeat split; vm_compute; reflexivity.
  - apply Z.eqb_neq in Hn. rewrite Hn. repeat split; vm_compute; reflexivity.
Qed.

(** An untreated row with score 1 next to an ordinary treated row. *)
Lemma C1_boundary_scores_give_infinity_witness :
  (List.length [7; 8] = List.length [1; 0]
   /\ List.length [0.25; 1]%float = List.length [1; 0]
   /\ nth_error [1; 0] 1 = Some 0 /\ nth_error [0.25; 1]%float 1 = Some 1%float
   /\ ((0 = 1 /\ 1%float = 0%float) \/ (0 <> 1 /\ 1%float = 1%float)))
  /\ exists w',
      ScenarioB.calculate_iptw_weights_on (cohort [7; 8] [1; 0] [0.25; 1]%float)
        (mk_world (mk_datetime 2025 1 1 0 0 0) [] [] []) = Ok (tt, w')
      /\ float_cell (reported [7; 8] [1; 0] [0.25; 1]%float) "Raw IPTW" 1 = Some infinity
      /\ float_cell (reported [7; 8] [1; 0] [0.25; 1]%float) "Stabilized IPTW" 1
         = Some infinity.
Proof.
  assert (Hb : (0 = 1 /\ 1%float = 0%float) \/ (0 <> 1 /\ 1%float = 1%float))
    by (right; split; [discriminate | reflexivity]).
  split; [repeat split; try reflexivity; exact Hb|].
  destruct (C1_boundary_scores_give_infinity [7; 8] [1; 0] [0.25; 1]%float
              (mk_world (mk_datetime 2025 1 1 0 0 0) [] [] []) 1%nat 0 1%float
              eq_refl eq_refl eq_refl eq_refl Hb)
    as (w' & H1 & _ & _ & _ & H2 & H3 & _).
  exists w'. auto.
Defined.

End Reported.

(** ** Binary64 arithmetic

    Facts about the primitive operations, derived from their specification by
    [SpecFloat] (the axioms of [FloatAxioms]). *)
Section Binary64_facts.
Import Binary64.


Lemma fexp_eq (x : Z) : fexp prec emax x = Z.max (x - 53) (-1074).
Proof. reflexivity. Qed.

Lemma digits2_pos_size (p : positive) : digits2_pos p = Pos.size p.
Proof. induction p; simpl; congruence. Qed.

Lemma Zdigits2_log2 (p : positive) : Zdigits2 (Zpos p) = Z.log2 (Zpos p) + 1.
Proof.
  cbn [Zdigits2]. rewrite digits2_pos_size.
  destruct p; cbn [Z.log2 Pos.size]; try lia.
Qed.

Lemma Zdigits2_bounds (p : positive) :
  2 ^ (Zdigits2 (Zpos p) - 1) <= Zpos p < 2 ^ Zdigits2 (Zpos p).
Proof.
  rewrite Zdigits2_log2.
  replace (Z.log2 (Zpos p) + 1 - 1) with (Z.log2 (Zpos p)) by lia.
  replace (Z.log2 (Zpos p) + 1) with (Z.succ (Z.log2 (Zpos p))) by lia.
  apply Z.log2_spec. lia.
Qed.

Lemma Zdigits2_pos (p : positive) : 1 <= Zdigits2 (Zpos p).
Proof. rewrite Zdigits2_log2. pose proof (Z.log2_nonneg (Zpos p)). lia. Qed.

Lemma Zdigits2_le (p : positive) (k : Z) : Zpos p < 2 ^ k -> 0 <= k -> Zdigits2 (Zpos p) <= k.
Proof.
  intros H Hk. rewrite Zdigits2_log2.
  assert (Z.log2 (Zpos p) < k) by (apply Z.log2_lt_pow2; lia). lia.
Qed.

Lemma iter_pos_nat {X : Type} (f : X -> X) (n : positive) (x : X) :
  iter_pos f n x = Nat.iter (Pos.to_nat n) f x.
Proof.
  revert x; induction n as [n IH|n IH|]; intros x; cbn [iter_pos].
  - rewrite !IH, Pos2Nat.inj_xI.
    replace (S (2 * Pos.to_nat n)) with (Pos.to_nat n + (Pos.to_nat n + 1))%nat by lia.
    rewrite !Nat.iter_add. reflexivity.
  - rewrite !IH, Pos2Nat.inj_xO.
    replace (2 * Pos.to_nat n)%nat with (Pos.to_nat n + Pos.to_nat n)%nat by lia.
    now rewrite Nat.iter_add.
  - reflexivity.
Qed.

Lemma shr_spec (mrs : shr_record) (e n : Z) :
  shr mrs e n = (Nat.iter (Z.to_nat n) shr_1 mrs, e + Z.max n 0).
Proof.
  destruct n as [|p|p]; cbn [shr Z.to_nat Nat.iter].
  - now rewrite Z.add_0_r.
  - now rewrite iter_pos_nat.
  - now rewrite Z.add_0_r.
Qed.

Lemma shr_fexp_spec (m e : Z) (l : location) :
  -1074 <= e ->
  shr_fexp prec emax m e l = (shifted m l, e + Z.max (Zdigits2 m - 53) 0).
Proof.
  intros He. unfold shr_fexp, shifted. rewrite shr_spec, fexp_eq.
  f_equal; [f_equal|]; lia.
Qed.

Lemma binary_round_aux_spec (s : bool) (m e : Z) (l : location) :
  -1074 <= e ->
  binary_round_aux prec emax s m e l
  = match final_mantissa m l with
    | Z0 => S754_zero s
    | Zpos p =>
        if e + exponent_shift m l <=? 971
        then S754_finite s p (e + exponent_shift m l)
        else S754_infinity s
    | Zneg _ => S754_nan
    end.
Proof.
  intros He. unfold binary_round_aux.
  rewrite shr_fexp_spec by assumption.
  fold (rounded m l).
  rewrite shr_fexp_spec by lia.
  fold (final_mantissa m l). unfold exponent_shift.
  rewrite Z.add_assoc. reflexivity.
Qed.

Lemma shr_1_m (mrs : shr_record) :
  0 <= shr_m mrs -> shr_m (shr_1 mrs) = shr_m mrs / 2.
Proof.
  destruct mrs as [m r s]. cbn [shr_m]. intros H.
  rewrite <- Z.div2_div.
  destruct m as [|[p|p|]|p]; cbn [shr_1 shr_m Z.div2]; try reflexivity; lia.
Qed.

Lemma iter_shr_1_m (k : nat) (mrs : shr_record) :
  0 <= shr_m mrs ->
  shr_m (Nat.iter k shr_1 mrs) = shr_m mrs / 2 ^ Z.of_nat k.
Proof.
  intros H. induction k as [|k IH].
  - change (Nat.iter 0 shr_1 mrs) with mrs. now rewrite Z.div_1_r.
  - change (Nat.iter (S k) shr_1 mrs) with (shr_1 (Nat.iter k shr_1 mrs)).
    rewrite shr_1_m.
    + rewrite IH, Z.div_div by lia. f_equal. rewrite Nat2Z.inj_succ, Z.pow_succ_r; lia.
    + rewrite IH. apply Z.div_pos; lia.
Qed.

Lemma shr_m_of_loc (m : Z) (l : location) : shr_m (shr_record_of_loc m l) = m.
Proof. destruct l as [|[| |]]; reflexivity. Qed.

Lemma shifted_m (m : Z) (l : location) :
  0 <= m -> shr_m (shifted m l) = m / 2 ^ Z.max (Zdigits2 m - 53) 0.
Proof.
  intros H. unfold shifted. rewrite iter_shr_1_m by now rewrite shr_m_of_loc.
  rewrite shr_m_of_loc. do 2 f_equal. lia.
Qed.

Lemma shifted_bounds (p : positive) (l : location) :
  1 <= shr_m (shifted (Zpos p) l) < 2 ^ 53.
Proof.
  rewrite shifted_m by lia.
  pose proof (Zdigits2_bounds p) as [Hlo Hhi].
  pose proof (Zdigits2_pos p) as Hd.
  set (d := Zdigits2 (Zpos p)) in *.
  set (k := Z.max (d - 53) 0).
  assert (Hk : 0 <= k <= d - 1) by lia.
  assert (H2 : 0 < 2 ^ k) by (apply Z.pow_pos_nonneg; lia).
  split.
  - apply Z.div_le_lower_bound; [lia|].
    rewrite Z.mul_1_r. apply Z.le_trans with (2 ^ (d - 1)); [|lia].
    apply Z.pow_le_mono_r; lia.
  - apply Z.div_lt_upper_bound; [lia|].
    rewrite <- Z.pow_add_r by lia.
    apply Z.lt_le_trans with (2 ^ d); [lia|].
    apply Z.pow_le_mono_r; lia.
Qed.

Lemma round_nearest_even_bounds (x : Z) (l : location) :
  x <= round_nearest_even x l <= x + 1.
Proof.
  destruct l as [|[| |]]; cbn [round_nearest_even]; try lia.
  destruct (Z.even x); lia.
Qed.

Lemma rounded_bounds (p : positive) (l : location) :
  1 <= rounded (Zpos p) l <= 2 ^ 53.
Proof.
  unfold rounded.
  pose proof (shifted_bounds p l).
  pose proof (round_nearest_even_bounds (shr_m (shifted (Zpos p) l))
                (loc_of_shr_record (shifted (Zpos p) l))).
  lia.
Qed.

Lemma final_mantissa_pos (p : positive) (l : location) :
  exists q, final_mantissa (Zpos p) l = Zpos q.
Proof.
  unfold final_mantissa.
  pose proof (rounded_bounds p l) as Hr.
  destruct (rounded (Zpos p) l) as [|r|r] eqn:E; try lia.
  pose proof (shifted_bounds r loc_Exact) as Hs.
  destruct (shr_m (shifted (Zpos r) loc_Exact)) as [|q|q]; try lia.
  now exists q.
Qed.

Lemma exponent_shift_bounds (p : positive) (l : location) :
  Z.max (Zdigits2 (Zpos p) - 53) 0 <= exponent_shift (Zpos p) l
  <= Z.max (Zdigits2 (Zpos p) - 53) 0 + 1.
Proof.
  unfold exponent_shift.
  pose proof (rounded_bounds p l) as Hr.
  destruct (rounded (Zpos p) l) as [|r|r] eqn:E; try lia.
  assert (Zdigits2 (Zpos r) <= 54) by (apply Zdigits2_le; lia).
  lia.
Qed.

(** Rounding a positive mantissa at an exponent not below the least one gives
    a positive number: no underflow to zero. *)
Lemma binary_round_aux_pos (s : bool) (p : positive) (e : Z) (l : location) :
  -1074 <= e ->
  binary_round_aux prec emax s (Zpos p) e l = S754_infinity s
  \/ exists q e',
      binary_round_aux prec emax s (Zpos p) e l = S754_finite s q e'
      /\ e' = e + exponent_shift (Zpos p) l /\ e' <= 971.
Proof.
  intros He. rewrite binary_round_aux_spec by assumption.
  destruct (final_mantissa_pos p l) as [q ->].
  destruct (e + exponent_shift (Zpos p) l <=? 971) eqn:E; [right|now left].
  exists q, (e + exponent_shift (Zpos p) l). apply Z.leb_le in E. auto.
Qed.

(** Lowering the exponent by one halves the rounded number, mantissa
    unchanged, as long as the least exponent is not passed. *)
Lemma binary_round_aux_half (s : bool) (p q : positive) (e e' : Z) (l : location) :
  -1074 <= e - 1 ->
  binary_round_aux prec emax s (Zpos p) e l = S754_finite s q e' ->
  binary_round_aux prec emax s (Zpos p) (e - 1) l = S754_finite s q (e' - 1).
Proof.
  intros He. rewrite !binary_round_aux_spec by lia.
  destruct (final_mantissa (Zpos p) l) as [|m|m]; try discriminate.
  destruct (e + exponent_shift (Zpos p) l <=? 971) eqn:E; try discriminate.
  intros H. injection H as -> <-.
  apply Z.leb_le in E.
  replace (e - 1 + exponent_shift (Zpos p) l <=? 971) with true
    by (symmetry; apply Z.leb_le; lia).
  f_equal. lia.
Qed.

(** ** Valid binary64 numbers *)

Lemma valid_finite (x : float) (s : bool) (m : positive) (e : Z) :
  Prim2SF x = S754_finite s m e ->
  -1074 <= e <= 971 /\ 1 <= Zdigits2 (Zpos m) <= 53
  /\ (-1074 < e -> Zdigits2 (Zpos m) = 53).
Proof.
  intros H. pose proof (Prim2SF_valid x) as V. rewrite H in V.
  unfold valid_binary, bounded, canonical_mantissa in V.
  apply andb_true_iff in V as [C B].
  apply Z.eqb_eq in C. apply Z.leb_le in B.
  rewrite fexp_eq in C. change (emax - prec) with 971 in B.
  pose proof (Zdigits2_pos m). cbn [Zdigits2] in *. lia.
Qed.

Lemma Prim2SF_zero : Prim2SF 0%float = S754_zero false.
Proof. reflexivity. Qed.

Lemma Prim2SF_one : Prim2SF 1%float = S754_finite false 4503599627370496 (-52).
Proof. reflexivity. Qed.

Lemma Prim2SF_half : Prim2SF 0.5%float = S754_finite false 4503599627370496 (-53).
Proof. reflexivity. Qed.

(** A float strictly above zero is a positive finite number or infinity. *)
Lemma positive_cases (x : float) :
  (0 <? x)%float = true ->
  Prim2SF x = S754_infinity false \/ exists m e, Prim2SF x = S754_finite false m e.
Proof.
  rewrite ltb_spec, Prim2SF_zero.
  destruct (Prim2SF x) as [s|s| |s m e]; cbn; try discriminate;
    destruct s; try discriminate; eauto.
Qed.

Lemma positive_of_cases (x : float) :
  (Prim2SF x = S754_infinity false \/ exists m e, Prim2SF x = S754_finite false m e) ->
  (0 <? x)%float = true.
Proof.
  rewrite ltb_spec, Prim2SF_zero. intros [-> | (m & e & ->)]; reflexivity.
Qed.

Lemma compare_cont_lt (p q : positive) :
  Pos.compare_cont Eq p q = Lt -> Zpos p < Zpos q.
Proof.
  intros H. apply Pos2Z.pos_lt_pos, Pos.compare_lt_iff. exact H.
Qed.

(** A float in (0, 1) has an exponent of at most -53, one in (0, 1] of at
    most -52. *)
Lemma below_one (x : float) :
  (0 <? x)%float = true -> (x <? 1)%float = true ->
  exists m e, Prim2SF x = S754_finite false m e /\ e <= -53.
Proof.
  intros H0 H1. apply positive_cases in H0.
  rewrite ltb_spec, Prim2SF_one in H1.
  destruct H0 as [E | (m & e & E)]; rewrite E in H1; [discriminate|].
  exists m, e. split; [assumption|].
  destruct (valid_finite x false m e E) as (He & Hd & Hn).
  unfold SFltb, SFcompare in H1.
  destruct (Z.compare_spec e (-52)) as [-> | Hlt | Hgt]; try discriminate; [|lia].
  exfalso.
  assert (Hd53 : Zdigits2 (Zpos m) = 53) by (apply Hn; lia).
  pose proof (Zdigits2_bounds m) as [Hlo _]. rewrite Hd53 in Hlo.
  destruct (Pos.compare_cont Eq m 4503599627370496) eqn:C; try discriminate.
  apply compare_cont_lt in C.
  change (2 ^ (53 - 1)) with 4503599627370496 in Hlo. lia.
Qed.

Lemma at_most_one (x : float) :
  (0 <? x)%float = true -> (x <=? 1)%float = true ->
  exists m e, Prim2SF x = S754_finite false m e /\ e <= -52.
Proof.
  intros H0 H1. apply positive_cases in H0.
  rewrite leb_spec, Prim2SF_one in H1.
  destruct H0 as [E | (m & e & E)]; rewrite E in H1; [discriminate|].
  exists m, e. split; [assumption|].
  unfold SFleb, SFcompare in H1.
  destruct (Z.compare_spec e (-52)) as [-> | Hlt | Hgt]; try discriminate; lia.
Qed.

(** ** Division of a power of two by a positive number *)

Lemma SFdiv_core_pow2 (e1 : Z) (m2 : positive) (e2 s : Z) :
  0 < s ->
  Z.min (fexp prec emax (53 + e1 - (Zdigits2 (Zpos m2) + e2))) (e1 - e2) = e1 - e2 - s ->
  SFdiv_core_binary prec emax (Zpos 4503599627370496) e1 (Zpos m2) e2
  = (Z.shiftl 4503599627370496 s / Zpos m2, e1 - e2 - s,
     new_location (Zpos m2) (Z.shiftl 4503599627370496 s mod Zpos m2)).
Proof.
  intros Hs Hmin. unfold SFdiv_core_binary.
  change (Zdigits2 (Zpos 4503599627370496)) with 53.
  rewrite Hmin.
  replace (e1 - e2 - (e1 - e2 - s)) with s by lia.
  destruct s as [|s|s]; try lia.
  unfold Z.div, Z.modulo.
  destruct (Z.div_eucl (Z.shiftl 4503599627370496 (Zpos s)) (Zpos m2)); reflexivity.
Qed.

Lemma quotient_pos (m2 : positive) (s : Z) :
  0 < s -> Zdigits2 (Zpos m2) <= 52 + s ->
  exists q, Z.shiftl 4503599627370496 s / Zpos m2 = Zpos q.
Proof.
  intros Hs Hd. rewrite Z.shiftl_mul_pow2 by lia.
  pose proof (Zdigits2_bounds m2) as [_ Hhi].
  pose proof (Zdigits2_pos m2).
  assert (Zpos m2 <= 4503599627370496 * 2 ^ s).
  { change 4503599627370496 with (2 ^ 52). rewrite <- Z.pow_add_r by lia.
    apply Z.le_trans with (2 ^ Zdigits2 (Zpos m2)); [lia|].
    apply Z.pow_le_mono_r; lia. }
  assert (1 <= 4503599627370496 * 2 ^ s / Zpos m2)
    by (apply Z.div_le_lower_bound; lia).
  destruct (4503599627370496 * 2 ^ s / Zpos m2) as [|q|q]; try lia.
  now exists q.
Qed.

(** [0.5 / c] for a positive finite [c] is the rounding of a positive
    mantissa at an exponent that is not below the least one. *)
Lemma half_div_rounding (c : float) (m2 : positive) (e2 : Z) :
  Prim2SF c = S754_finite false m2 e2 ->
  exists q e' l,
    Prim2SF (0.5 / c)%float = binary_round_aux prec emax false (Zpos q) e' l
    /\ -1074 <= e'.
Proof.
  intros E. destruct (valid_finite c false m2 e2 E) as (He & Hd & _).
  rewrite div_spec, Prim2SF_half, E. unfold SF64div, SFdiv.
  set (s := Z.min (Zdigits2 (Zpos m2)) (1021 - e2)).
  rewrite (SFdiv_core_pow2 (-53) m2 e2 s).
  - destruct (quotient_pos m2 s) as [q ->]; [lia | lia |].
    do 3 eexists. split; [reflexivity | lia].
  - lia.
  - rewrite fexp_eq. lia.
Qed.

(** [1 / c] and [0.5 / c] for [c] in (0, 1]: the same mantissa and location,
    exponents one apart. *)
Lemma one_and_half_div_rounding (c : float) (m2 : positive) (e2 : Z) :
  Prim2SF c = S754_finite false m2 e2 -> e2 <= -52 ->
  exists q e' l,
    Prim2SF (1 / c)%float = binary_round_aux prec emax false (Zpos q) e' l
    /\ Prim2SF (0.5 / c)%float = binary_round_aux prec emax false (Zpos q) (e' - 1) l
    /\ -54 <= e' - 1.
Proof.
  intros E He2. destruct (valid_finite c false m2 e2 E) as (He & Hd & _).
  rewrite !div_spec, Prim2SF_half, Prim2SF_one, E. unfold SF64div, SFdiv.
  rewrite (SFdiv_core_pow2 (-52) m2 e2 (Zdigits2 (Zpos m2)))
    by (rewrite ?fexp_eq; lia).
  rewrite (SFdiv_core_pow2 (-53) m2 e2 (Zdigits2 (Zpos m2)))
    by (rewrite ?fexp_eq; lia).
  destruct (quotient_pos m2 (Zdigits2 (Zpos m2))) as [q ->]; [lia | lia |].
  exists q, (-52 - e2 - Zdigits2 (Zpos m2)), 
    (new_location (Zpos m2)
       (Z.shiftl 4503599627370496 (Zdigits2 (Zpos m2)) mod Zpos m2)).
  split; [reflexivity|]. split; [|lia].
  cbn [xorb]. f_equal. lia.
Qed.

(** [0.5 / c] is positive for every positive finite [c]. *)
Lemma half_div_pos (c : float) (m : positive) (e : Z) :
  Prim2SF c = S754_finite false m e -> (0 <? 0.5 / c)%float = true.
Proof.
  intros E. destruct (half_div_rounding c m e E) as (q & e' & l & H & He).
  apply positive_of_cases. rewrite H.
  destruct (binary_round_aux_pos false q e' l He) as [Hi | (p & e'' & Hf & _)]; eauto.
Qed.

(** ** Multiplication by one half *)

Lemma iter_shr_1_exact (k : nat) (m : positive) :
  Nat.iter k shr_1 (Build_shr_record (Zpos m * 2 ^ Z.of_nat k) false false)
  = Build_shr_record (Zpos m) false false.
Proof.
  revert m; induction k as [|k IH]; intros m.
  - change (Nat.iter 0 shr_1 ?x) with x. f_equal. cbn. lia.
  - change (Nat.iter (S k) shr_1 ?x) with (shr_1 (Nat.iter k shr_1 x)).
    replace (Zpos m * 2 ^ Z.of_nat (S k)) with (Zpos (xO m) * 2 ^ Z.of_nat k)
      by (rewrite Nat2Z.inj_succ, Z.pow_succ_r; lia).
    rewrite IH. reflexivity.
Qed.

Lemma mul_half_rounding (p : positive) (e : Z) :
  Zdigits2 (Zpos p) = 53 -> -1000 <= e <= 971 ->
  binary_round_aux prec emax false (Zpos (p * 4503599627370496)) (e + -53) loc_Exact
  = S754_finite false p (e - 1).
Proof.
  intros Hd He.
  assert (Hd' : Zdigits2 (Zpos (p * 4503599627370496)) = 105).
  { rewrite Zdigits2_log2, Pos2Z.inj_mul. change (Zpos 4503599627370496) with (2 ^ 52).
    rewrite Z.log2_mul_pow2 by lia. rewrite Zdigits2_log2 in Hd. lia. }
  assert (Hs : shifted (Zpos (p * 4503599627370496)) loc_Exact
               = Build_shr_record (Zpos p) false false).
  { unfold shifted. rewrite Hd'. change (Z.to_nat (105 - 53)) with 52%nat.
    rewrite Pos2Z.inj_mul. change (Zpos 4503599627370496) with (2 ^ Z.of_nat 52).
    apply iter_shr_1_exact. }
  assert (Hr : rounded (Zpos (p * 4503599627370496)) loc_Exact = Zpos p)
    by (unfold rounded; rewrite Hs; reflexivity).
  rewrite binary_round_aux_spec by lia.
  unfold final_mantissa, exponent_shift. rewrite Hr, Hd', Hd.
  unfold shifted. rewrite Hd. change (Z.to_nat (53 - 53)) with 0%nat.
  change (Nat.iter 0 shr_1 ?x) with x. cbn [shr_record_of_loc shr_m].
  change (Z.max (105 - 53) 0 + Z.max (53 - 53) 0) with 52.
  replace (e + -53 + 52 <=? 971) with true by (symmetry; apply Z.leb_le; lia).
  f_equal. lia.
Qed.

(** Halving the quotient is dividing one half: [0.5 / c = (1 / c) * 0.5] for
    [c] in (0, 1] when [1 / c] does not overflow. *)
Lemma half_div_is_half_of_div (c : float) (m : positive) (e : Z) :
  Prim2SF c = S754_finite false m e -> e <= -52 ->
  (1 / c <? infinity)%float = true ->
  (0.5 / c = 1 / c * 0.5)%float.
Proof.
  intros E He Hfin.
  destruct (one_and_half_div_rounding c m e E He) as (q & e' & l & H1 & H05 & Hb).
  rewrite ltb_spec, H1 in Hfin.
  destruct (binary_round_aux_pos false q e' l) as [Hi | (p & e'' & Hf & He'' & Hle)];
    [lia | rewrite Hi in Hfin; discriminate Hfin |].
  pose proof (binary_round_aux_half false q p e' e'' l ltac:(lia) Hf) as Hh.
  rewrite Hf in H1. rewrite Hh in H05.
  pose proof (exponent_shift_bounds q l) as Hsh.
  destruct (valid_finite _ _ _ _ H1) as (_ & _ & Hn).
  apply Prim2SF_inj.
  rewrite H05, mul_spec, H1, Prim2SF_half. unfold SF64mul, SFmul. cbn [xorb].
  symmetry. apply mul_half_rounding; [apply Hn|]; lia.
Qed.

(** ** One minus a number of (0, 1) *)

Lemma Zpos_iter_xO (m d : positive) : Zpos (Pos.iter xO m d) = Zpos m * 2 ^ Zpos d.
Proof.
  rewrite <- Z.shiftl_mul_pow2 by lia. cbn [Z.shiftl].
  apply (Pos.iter_swap_gen _ _ Zpos xO (Z.mul 2)). reflexivity.
Qed.

Lemma shl_align_spec (mx : positive) (ex ex' : Z) :
  exists mz,
    shl_align mx ex ex' = (mz, Z.min ex ex')
    /\ Zpos mz = Zpos mx * 2 ^ (ex - Z.min ex ex').
Proof.
  unfold shl_align. destruct (ex' - ex) as [|d|d] eqn:D.
  - exists mx. replace (Z.min ex ex') with ex by lia.
    rewrite Z.sub_diag. split; [reflexivity | lia].
  - exists mx. replace (Z.min ex ex') with ex by lia.
    rewrite Z.sub_diag. split; [reflexivity | lia].
  - exists (Pos.iter xO mx d). replace (Z.min ex ex') with ex' by lia.
    split; [reflexivity|]. rewrite Zpos_iter_xO. f_equal. f_equal. lia.
Qed.

Lemma one_minus_rounding (g : float) :
  (0 <? g)%float = true -> (g <? 1)%float = true ->
  exists p e, Prim2SF (1 - g)%float = S754_finite false p e /\ e <= -52.
Proof.
  intros H0 H1. destruct (below_one g H0 H1) as (m & e & E & He).
  destruct (valid_finite g false m e E) as (Hb & Hd & _).
  pose proof (Zdigits2_bounds m) as [_ Hm].
  rewrite sub_spec, Prim2SF_one, E. unfold SF64sub, SFsub. cbn [cond_Zopp].
  destruct (shl_align_spec 4503599627370496 (-52) (Z.min (-52) e)) as (a & -> & Ha).
  destruct (shl_align_spec m e (Z.min (-52) e)) as (b & -> & Hb').
  cbn [fst]. rewrite Ha, Hb'.
  replace (Z.min (-52) (Z.min (-52) e)) with e by lia.
  replace (Z.min e (Z.min (-52) e)) with e by lia.
  replace (Z.min (-52) e) with e by lia.
  rewrite Z.sub_diag, Z.mul_1_r.
  change (Zpos 4503599627370496) with (2 ^ 52). rewrite <- Z.pow_add_r by lia.
  replace (52 + (-52 - e)) with (- e) by lia.
  assert (Hlt : Zpos m < 2 ^ (- e)).
  { apply Z.lt_le_trans with (2 ^ Zdigits2 (Zpos m)); [assumption|].
    apply Z.pow_le_mono_r; lia. }
  destruct (2 ^ (- e) - Zpos m) as [|D|D] eqn:ED; try lia.
  cbn [binary_normalize]. unfold binary_round.
  destruct (shl_align_spec D e (fexp prec emax (Zpos (digits2_pos D) + e)))
    as (mz & -> & Hmz).
  set (ez := Z.min e (fexp prec emax (Zpos (digits2_pos D) + e))) in *.
  assert (Hez : -1074 <= ez <= e) by (unfold ez; rewrite fexp_eq; lia).
  assert (Hmzlt : Zpos mz < 2 ^ (- ez)).
  { rewrite Hmz. replace (- ez) with (- e + (e - ez)) by lia.
    rewrite Z.pow_add_r by lia.
    apply Z.mul_lt_mono_pos_r; [apply Z.pow_pos_nonneg; lia | lia]. }
  assert (Hdz : Zdigits2 (Zpos mz) <= - ez) by (apply Zdigits2_le; lia).
  pose proof (exponent_shift_bounds mz loc_Exact) as Hsh.
  destruct (binary_round_aux_pos false mz ez loc_Exact) as [Hi | (p & e' & Hf & He' & Hle)];
    [lia | |].
  - exfalso. rewrite binary_round_aux_spec in Hi by lia.
    destruct (final_mantissa_pos mz loc_Exact) as [q Hq]. rewrite Hq in Hi.
    replace (ez + exponent_shift (Zpos mz) loc_Exact <=? 971) with true in Hi
      by (symmetry; apply Z.leb_le; lia).
    discriminate Hi.
  - exists p, e'. split; [assumption | lia].
Qed.

End Binary64_facts.

(** ** The weights of Scenario B, row by row *)
Section Weights.
Import Py Pd RowFormulas.

Lemma marginal_probability_half (a : Z) : marginal_probability a = 0.5%float.
Proof. unfold marginal_probability. destruct (a =? 1); reflexivity. Qed.

Lemma map_marginal (A : list Z) :
  map marginal_probability A = repeat 0.5%float (List.length A).
Proof.
  induction A as [|a A IH]; [reflexivity|].
  cbn [map List.length repeat]. now rewrite IH, marginal_probability_half.
Qed.

Lemma Forall_zip_with {X Y W : Type} (f : X -> Y -> W) (Q : Y -> Prop) (P : W -> Prop)
      (l1 : list X) (l2 : list Y) :
  (forall a b, Q b -> P (f a b)) -> Forall Q l2 -> Forall P (zip_with f l1 l2).
Proof.
  intros H. revert l2; induction l1 as [|a l1 IH]; intros [|b l2] HQ;
    cbn [zip_with]; try constructor.
  - apply H. now inversion HQ.
  - apply IH. now inversion HQ.
Qed.

(** The cells of row [i] of the working frame. *)
Lemma cells_of_row (ids A : list Z) (g : list float) (i : nat) (a : Z) (x : float) :
  nth_error A i = Some a -> nth_error g i = Some x ->
  float_cell (weighted ids A g) "P(A|L)" i = Some (conditional_probability a x)
  /\ float_cell (weighted ids A g) "Raw IPTW" i = Some (raw_weight a x)
  /\ float_cell (weighted ids A g) "P(A)" i = Some (marginal_probability a)
  /\ float_cell (weighted ids A g) "Stabilized IPTW" i = Some (stabilized_weight a x).
Proof.
  intros Ha Hx. unfold float_cell, weighted, cohort.
  cbn [app getitem String.eqb Ascii.eqb Bool.eqb].
  repeat split; try (now apply zip_with_nth_error).
  now apply map_nth_error.
Qed.

(** In (0, 1) the conditional probability is a positive finite number of at
    most one. *)
Lemma conditional_probability_range (a : Z) (x : float) :
  (0 <? x)%float = true -> (x <? 1)%float = true ->
  exists m e, Prim2SF (conditional_probability a x) = S754_finite false m e /\ e <= -52.
Proof.
  intros H0 H1. unfold conditional_probability. destruct (a =? 1).
  - destruct (below_one x H0 H1) as (m & e & E & He). exists m, e. split; [assumption | lia].
  - now apply one_minus_rounding.
Qed.

Lemma stabilized_weight_pos (a : Z) (x : float) :
  (0 <? x)%float = true -> (x <? 1)%float = true ->
  (0 <? stabilized_weight a x)%float = true.
Proof.
  intros H0 H1. unfold stabilized_weight. rewrite marginal_probability_half.
  destruct (conditional_probability_range a x H0 H1) as (m & e & E & _).
  now apply (half_div_pos _ m e).
Qed.

Lemma stabilized_is_half_raw (a : Z) (x : float) :
  (0 <? x)%float = true -> (x <? 1)%float = true ->
  (raw_weight a x <? infinity)%float = true ->
  stabilized_weight a x = (raw_weight a x * 0.5)%float.
Proof.
  intros H0 H1 Hf. unfold stabilized_weight, raw_weight in *.
  rewrite marginal_probability_half.
  destruct (conditional_probability_range a x H0 H1) as (m & e & E & He).
  now apply (half_div_is_half_of_div _ m e).
Qed.

(** C8: when every propensity score lies strictly between 0 and 1, every
    stabilized weight the script computes is strictly positive.  Their sum is
    only printed, to four decimals: the run completes whatever its value, no
    target is checked. *)
Theorem C8_stabilized_weights_positive (ids A : list Z) (g : list float) (w : world) :
  List.length ids = List.length A -> List.length g = List.length A ->
  Forall (fun x => (0 <? x)%float = true /\ (x <? 1)%float = true) g ->
  exists df s stab w',
    ScenarioB.weights (cohort ids A g) = Ok (df, s)
    /\ getitem df "Stabilized IPTW" = Ok (Float64 stab)
    /\ Forall (fun v => (0 <? v)%float = true) stab
    /\ sum (Float64 stab) = Ok s
    /\ ScenarioB.calculate_iptw_weights_on (cohort ids A g) w = Ok (tt, w')
    /\ In (Text ("✅ Final Sum of Stabilized Weights (Cohort Sum of SIPTW): "
                 ++ format_fixed 4 s)) (console w').
Proof.
  intros Hi Hg Hr.
  exists (weighted ids A g), (cohort_sum A g), (zip_with stabilized_weight A g).
  eexists.
  split; [now apply weights_cohort|].
  split; [reflexivity|].
  split.
  { apply (Forall_zip_with _ (fun x => (0 <? x)%float = true /\ (x <? 1)%float = true));
      [|assumption].
    intros a x [H0 H1]. now apply stabilized_weight_pos. }
  split; [reflexivity|].
  split; [now apply run_B|].
  unfold after_run. cbn [console]. apply in_or_app. right.
  unfold console_B. cbn [In]. auto 10.
Qed.

(** The cohort of the program: four positive weights whose sum, 7.5 at four
    decimals, is printed and compared with nothing (the cohort has 4 rows). *)
Lemma C8_stabilized_weights_positive_witness :
  (List.length [1; 2; 3; 4] = List.length [1; 1; 0; 0]
   /\ List.length [0.8; 0.4; 0.9; 0.2]%float = List.length [1; 1; 0; 0]
   /\ Forall (fun x => (0 <? x)%float = true /\ (x <? 1)%float = true)
             [0.8; 0.4; 0.9; 0.2]%float)
  /\ exists df s stab w',
      ScenarioB.weights ScenarioB.data = Ok (df, s)
      /\ getitem df "Stabilized IPTW" = Ok (Float64 stab)
      /\ Forall (fun v => (0 <? v)%float = true) stab
      /\ sum (Float64 stab) = Ok s
      /\ ScenarioB.calculate_iptw_weights (mk_world (mk_datetime 2025 1 1 0 0 0) [] [] [])
         = Ok (tt, w')
      /\ In (Text "✅ Final Sum of Stabilized Weights (Cohort Sum of SIPTW): 7.5000")
            (console w').
Proof.
  assert (Hr : Forall (fun x => (0 <? x)%float = true /\ (x <? 1)%float = true)
                      [0.8; 0.4; 0.9; 0.2]%float)
    by (repeat constructor).
  split; [repeat split; try reflexivity; exact Hr|].
  destruct (C8_stabilized_weights_positive [1; 2; 3; 4] [1; 1; 0; 0]
              [0.8; 0.4; 0.9; 0.2]%float
              (mk_world (mk_datetime 2025 1 1 0 0 0) [] [] []) eq_refl eq_refl Hr)
    as (df & s & stab & w' & H1 & H2 & H3 & H4 & H5 & H6).
  exists df, s, stab, w'.
  repeat split; try assumption.
  pose proof (weights_cohort [1; 2; 3; 4] [1; 1; 0; 0] [0.8; 0.4; 0.9; 0.2]%float
                eq_refl eq_refl) as Hw.
  rewrite H1 in Hw. injection Hw as _ Hs. rewrite Hs in H6. exact H6.
Defined.

(** C4, as stated, fails: on a treated row with the propensity score 2^-1024
    the raw weight overflows to infinity while the stabilized weight is the
    finite 2^1023, so the stabilized weight is not the raw weight times the
    marginal probability. *)
Lemma C4_identity_fails_on_overflow :
  exists df s raw marg stab,
    ScenarioB.weights (cohort [1] [1] [0x1p-1024%float]) = Ok (df, s)
    /\ float_cell df "Raw IPTW" 0 = Some raw
    /\ float_cell df "P(A)" 0 = Some marg
    /\ float_cell df "Stabilized IPTW" 0 = Some stab
    /\ raw = infinity /\ stab = 0x1p+1023%float
    /\ stab <> (raw * marg)%float.
Proof.
  exists (weighted [1] [1] [0x1p-1024%float]), (cohort_sum [1] [0x1p-1024%float]).
  exists infinity, 0.5%float, 0x1p+1023%float.
  split; [apply weights_cohort; reflexivity|].
  repeat split; try (vm_compute; reflexivity).
  apply float_neq. vm_compute. discriminate.
Qed.

(** C4, amended: on a cohort of any rows, every row has
    raw weight = 1 / conditional probability and
    stabilized weight = marginal probability / conditional probability, the
    quotients being those of binary64; and the stabilized weight is the raw
    weight times the marginal probability for every row whose propensity score
    lies strictly between 0 and 1 and whose raw weight is finite. *)
Theorem C4_weight_identities (ids A : list Z) (g : list float) :
  List.length ids = List.length A -> List.length g = List.length A ->
  exists df s,
    ScenarioB.weights (cohort ids A g) = Ok (df, s)
    /\ forall i a x,
        nth_error A i = Some a -> nth_error g i = Some x ->
        exists cond raw marg stab,
          float_cell df "P(A|L)" i = Some cond
          /\ float_cell df "Raw IPTW" i = Some raw
          /\ float_cell df "P(A)" i = Some marg
          /\ float_cell df "Stabilized IPTW" i = Some stab
          /\ cond = (if (a =? 1)%Z then x else 1 - x)%float
          /\ raw = (1 / cond)%float
          /\ stab = (marg / cond)%float
          /\ ((0 <? x)%float = true -> (x <? 1)%float = true ->
              (raw <? infinity)%float = true ->
              stab = (raw * marg)%float).
Proof.
  intros Hi Hg.
  exists (weighted ids A g), (cohort_sum A g).
  split; [now apply weights_cohort|].
  intros i a x Ha Hx.
  destruct (cells_of_row ids A g i a x Ha Hx) as (Hc & Hr & Hm & Hs).
  exists (conditional_probability a x), (raw_weight a x),
         (marginal_probability a), (stabilized_weight a x).
  repeat split; try assumption; try reflexivity.
  intros H0 H1 Hf. rewrite marginal_probability_half.
  now apply stabilized_is_half_raw.
Qed.

(** Row 3 of the program: untreated, propensity score 0.9. *)
Lemma C4_weight_identities_witness :
  (List.length [1; 2; 3; 4] = List.length [1; 1; 0; 0]
   /\ List.length [0.8; 0.4; 0.9; 0.2]%float = List.length [1; 1; 0; 0])
  /\ exists df s raw marg stab,
      ScenarioB.weights ScenarioB.data = Ok (df, s)
      /\ float_cell df "Raw IPTW" 2 = Some raw
      /\ float_cell df "P(A)" 2 = Some marg
      /\ float_cell df "Stabilized IPTW" 2 = Some stab
      /\ (0 <? 0.9)%float = true /\ (0.9 <? 1)%float = true
      /\ (raw <? infinity)%float = true
      /\ stab = (raw * marg)%float.
Proof.
  split; [split; reflexivity|].
  destruct (C4_weight_identities [1; 2; 3; 4] [1; 1; 0; 0] [0.8; 0.4; 0.9; 0.2]%float
              eq_refl eq_refl) as (df & s & Hw & Hrows).
  destruct (Hrows 2%nat 0 0.9%float eq_refl eq_refl)
    as (cond & raw & marg & stab & Hc & Hr & Hm & Hs & Ec & Er & Es & Hid).
  assert (Hf : (raw <? infinity)%float = true) by (rewrite Er, Ec; reflexivity).
  exists df, s, raw, marg, stab.
  repeat split; try assumption; try reflexivity.
  apply Hid; [reflexivity | reflexivity | exact Hf].
Defined.

(** C9, as stated, fails in its conclusion: on a treated row with the
    propensity score 5e-309 the raw weight is infinity and the stabilized
    weight the finite 1e308, which is not half of it. *)
Lemma C9_half_fails_on_overflow :
  exists df s raw stab,
    ScenarioB.weights (cohort [1] [1] [5e-309%float]) = Ok (df, s)
    /\ float_cell df "P(A)" 0 = Some 0.5%float
    /\ float_cell df "Raw IPTW" 0 = Some raw
    /\ float_cell df "Stabilized IPTW" 0 = Some stab
    /\ raw = infinity /\ stab = 1e308%float
    /\ stab <> (raw * 0.5)%float /\ stab <> (raw / 2)%float.
Proof.
  exists (weighted [1] [1] [5e-309%float]), (cohort_sum [1] [5e-309%float]).
  exists infinity, 1e308%float.
  split; [apply weights_cohort; reflexivity|].
  repeat split; try (vm_compute; reflexivity);
    apply float_neq; vm_compute; discriminate.
Qed.

(** C9, amended: on a cohort of any rows the computed marginal probability
    P(A) is 0.5 in every row, whatever the treatment indicator, since
    [1 - 0.5] is [0.5]; and the stabilized weight is exactly half the raw
    weight for every row whose propensity score lies strictly between 0 and 1
    and whose raw weight is finite. *)
Theorem C9_marginal_is_half (ids A : list Z) (g : list float) :
  List.length ids = List.length A -> List.length g = List.length A ->
  exists df s,
    ScenarioB.weights (cohort ids A g) = Ok (df, s)
    /\ getitem df "P(A)" = Ok (Float64 (repeat 0.5%float (List.length A)))
    /\ forall i a x,
        nth_error A i = Some a -> nth_error g i = Some x ->
        exists raw stab,
          float_cell df "P(A)" i = Some 0.5%float
          /\ float_cell df "Raw IPTW" i = Some raw
          /\ float_cell df "Stabilized IPTW" i = Some stab
          /\ ((0 <? x)%float = true -> (x <? 1)%float = true ->
              (raw <? infinity)%float = true ->
              stab = (raw * 0.5)%float).
Proof.
  intros Hi Hg.
  exists (weighted ids A g), (cohort_sum A g).
  split; [now apply weights_cohort|].
  split.
  { unfold weighted, cohort. cbn [app getitem String.eqb Ascii.eqb Bool.eqb].
    now rewrite map_marginal. }
  intros i a x Ha Hx.
  destruct (cells_of_row ids A g i a x Ha Hx) as (_ & Hr & Hm & Hs).
  rewrite marginal_probability_half in Hm.
  exists (raw_weight a x), (stabilized_weight a x).
  repeat split; try assumption.
  intros H0 H1 Hf. now apply stabilized_is_half_raw.
Qed.

(** Row 1 of the program: treated, propensity score 0.8. *)
Lemma C9_marginal_is_half_witness :
  (List.length [1; 2; 3; 4] = List.length [1; 1; 0; 0]
   /\ List.length [0.8; 0.4; 0.9; 0.2]%float = List.length [1; 1; 0; 0])
  /\ exists df s raw stab,
      ScenarioB.weights ScenarioB.data = Ok (df, s)
      /\ getitem df "P(A)" = Ok (Float64 [0.5; 0.5; 0.5; 0.5]%float)
      /\ float_cell df "Raw IPTW" 0 = Some raw
      /\ float_cell df "Stabilized IPTW" 0 = Some stab
      /\ (0 <? 0.8)%float = true /\ (0.8 <? 1)%float = true
      /\ (raw <? infinity)%float = true
      /\ stab = (raw * 0.5)%float.
Proof.
  split; [split; reflexivity|].
  destruct (C9_marginal_is_half [1; 2; 3; 4] [1; 1; 0; 0] [0.8; 0.4; 0.9; 0.2]%float
              eq_refl eq_refl) as (df & s & Hw & Hp & Hrows).
  destruct (Hrows 0%nat 1 0.8%float eq_refl eq_refl) as (raw & stab & _ & Hr & Hs & Hid).
  assert (Hf : (raw <? infinity)%float = true).
  { pose proof (weights_cohort [1; 2; 3; 4] [1; 1; 0; 0] [0.8; 0.4; 0.9; 0.2]%float
                  eq_refl eq_refl) as Hw'.
    rewrite Hw in Hw'. injection Hw' as Hdf _. rewrite Hdf in Hr.
    injection Hr as <-. reflexivity. }
  exists df, s, raw, stab.
  repeat split; try assumption; try reflexivity.
  apply Hid; [reflexivity | reflexivity | exact Hf].
Defined.

End Weights.

(** * Further properties of the scripts *)

(** ** What a run changes and what it leaves alone *)
Section Effects.
Import Py Pd.


Lemma filter_twice {X : Type} (f : X -> bool) (l : list X) :
  filter f (filter f l) = filter f l.
Proof.
  induction l as [|x l IH]; [reflexivity|].
  cbn [filter]. destruct (f x) eqn:E; cbn [filter]; rewrite ?E, IH; reflexivity.
Qed.



(** Running again in the world a run has left, at the same reading of the
    clock, changes neither the files nor the directories. *)
Lemma after_run_again (w : world) (out out' : list printed) (path content : string) :
  files (after_run (after_run w out path content) out' path content)
  = files (after_run w out path content)
  /\ dirs (after_run (after_run w out path content) out' path content)
     = dirs (after_run w out path content).
Proof.
  unfold after_run. cbn [files dirs fst filter]. split.
  - rewrite String.eqb_refl. cbn [negb]. now rewrite filter_twice.
  - destruct (existsb (String.eqb (dirname path)) (dirs w)) eqn:E.
    + now rewrite E.
    + cbn [existsb]. now rewrite String.eqb_refl.
Qed.



(** X2: Scenario B replaces its results file, it does not append to it: a
    second run in the world the first has left, at the same reading of the
    clock, leaves the files and the directories exactly as the first did. *)
Theorem X2_scenario_B_rerun_keeps_files
        (ids A : list Z) (g : list float) (w : world) :
  List.length ids = List.length A -> List.length g = List.length A ->
  exists w1 w2,
    ScenarioB.calculate_iptw_weights_on (cohort ids A g) w = Ok (tt, w1)
    /\ ScenarioB.calculate_iptw_weights_on (cohort ids A g) w1 = Ok (tt, w2)
    /\ files w2 = files w1 /\ dirs w2 = dirs w1.
Proof.
  intros Hi Hg. do 2 eexists.
  split; [now apply run_B|].
  split; [now apply run_B|].
  cbn [clock after_run]. apply after_run_again.
Qed.

(** The cohort of the program, run twice from an empty world. *)
Lemma X2_scenario_B_rerun_keeps_files_witness :
  (List.length [1; 2; 3; 4] = List.length [1; 1; 0; 0]
   /\ List.length [0.8; 0.4; 0.9; 0.2]%float = List.length [1; 1; 0; 0])
  /\ exists w1 w2,
      ScenarioB.calculate_iptw_weights (mk_world (mk_datetime 2025 1 1 0 0 0) [] [] [])
      = Ok (tt, w1)
      /\ ScenarioB.calculate_iptw_weights w1 = Ok (tt, w2)
      /\ files w2 = files w1 /\ dirs w2 = dirs w1.
Proof.
  split; [split; reflexivity|].
  exact (X2_scenario_B_rerun_keeps_files [1; 2; 3; 4] [1; 1; 0; 0]
           [0.8; 0.4; 0.9; 0.2]%float
           (mk_world (mk_datetime 2025 1 1 0 0 0) [] [] []) eq_refl eq_refl).
Defined.



End Effects.

(** ** The two scripts side by side, and malformed tables *)
Section Together.
Import Py Pd.





Lemma getitem_missing (df : DataFrame) (key : string) :
  ~ In key (columns df) -> getitem df key = Raise (KeyError key).
Proof.
  induction df as [|[k s] df IH]; intros H; [reflexivity|].
  cbn [getitem]. cbn [columns map fst In] in H.
  destruct (String.eqb_spec k key) as [E | _]; [tauto|].
  apply IH. unfold columns. tauto.
Qed.

Lemma eq_scalar_returns (s : Series) (k : Z) : exists v, eq_scalar s k = Ok v.
Proof. destruct s; cbn [eq_scalar]; eauto. Qed.

(** X6: a table whose columns do not all have the same length is rejected
    when the frame is built: the run raises [ValueError], whatever the state
    of the outside. *)
Theorem X6_ragged_table_is_rejected
        (ids A : list Z) (g : list float) (w : world) :
  List.length A <> List.length ids \/ List.length g <> List.length ids ->
  ScenarioB.calculate_iptw_weights_on (cohort ids A g) w
  = Raise (ValueError "All arrays must be of the same length").
Proof.
  intros H. unfold ScenarioB.calculate_iptw_weights_on, bindR at 1.
  unfold mk_DataFrame, cohort. cbn [forallb nrows size snd lift].
  rewrite Nat.eqb_refl. cbn [andb].
  destruct (Nat.eqb_spec (List.length A) (List.length ids)) as [EA | NA];
    [|reflexivity].
  destruct (Nat.eqb_spec (List.length g) (List.length ids)) as [EG | NG];
    [|reflexivity].
  destruct H; contradiction.
Qed.

(** Two patients, one propensity score. *)
Lemma X6_ragged_table_is_rejected_witness :
  (List.length [1; 0] <> List.length [1; 2]
   \/ List.length [0.5%float] <> List.length [1; 2])
  /\ ScenarioB.calculate_iptw_weights_on (cohort [1; 2] [1; 0] [0.5%float])
       (mk_world (mk_datetime 2025 1 1 0 0 0) [] [] [])
     = Raise (ValueError "All arrays must be of the same length").
Proof.
  assert (H : List.length [1; 0] <> List.length [1; 2]
              \/ List.length [0.5%float] <> List.length [1; 2])
    by (right; discriminate).
  split; [exact H|].
  exact (X6_ragged_table_is_rejected [1; 2] [1; 0] [0.5%float]
           (mk_world (mk_datetime 2025 1 1 0 0 0) [] [] []) H).
Defined.

(** X7: a column the computation reads must be there.  On a frame without
    the treatment column the weights step raises [KeyError] for it; with a
    treatment column of any kind but no propensity column it raises
    [KeyError] for the propensity column. *)
Theorem X7_missing_column_raises_KeyError (df : DataFrame) :
  (~ In "A (Treatment)" (columns df) ->
   ScenarioB.weights df = Raise (KeyError "A (Treatment)"))
  /\ (In "A (Treatment)" (columns df) ->
      ~ In "g (Propensity Score)" (columns df) ->
      ScenarioB.weights df = Raise (KeyError "g (Propensity Score)")).
Proof.
  split.
  - intros H. unfold ScenarioB.weights. now rewrite getitem_missing.
  - intros Ha Hg. unfold ScenarioB.weights.
    destruct (getitem df "A (Treatment)") as [a | e] eqn:E.
    + cbn [bind]. destruct (eq_scalar_returns a 1) as [v ->]. cbn [bind].
      now rewrite getitem_missing.
    + exfalso. clear Hg. induction df as [|[k s] df IH]; [contradiction|].
      cbn [getitem] in E. cbn [columns map fst In] in Ha.
      destruct (String.eqb_spec k "A (Treatment)") as [-> | Hk]; [discriminate|].
      apply IH; [|assumption]. destruct Ha as [Ha | Ha]; [contradiction | exact Ha].
Qed.

(** A frame with patient identifiers only, and one without propensity
    scores. *)
Lemma X7_missing_column_raises_KeyError_witness :
  (~ In "A (Treatment)" (columns [("Patient ID", Int64 [1; 2])])
   /\ In "A (Treatment)" (columns [("Patient ID", Int64 [1; 2]);
                                   ("A (Treatment)", Int64 [1; 0])])
   /\ ~ In "g (Propensity Score)" (columns [("Patient ID", Int64 [1; 2]);
                                            ("A (Treatment)", Int64 [1; 0])]))
  /\ ScenarioB.weights [("Patient ID", Int64 [1; 2])] = Raise (KeyError "A (Treatment)")
  /\ ScenarioB.weights [("Patient ID", Int64 [1; 2]); ("A (Treatment)", Int64 [1; 0])]
     = Raise (KeyError "g (Propensity Score)").
Proof.
  assert (H1 : ~ In "A (Treatment)" (columns [("Patient ID", Int64 [1; 2])]))
    by (cbn; intros [H | []]; discriminate H).
  assert (H2 : In "A (Treatment)" (columns [("Patient ID", Int64 [1; 2]);
                                           ("A (Treatment)", Int64 [1; 0])]))
    by (cbn; auto).
  assert (H3 : ~ In "g (Propensity Score)" (columns [("Patient ID", Int64 [1; 2]);
                                                     ("A (Treatment)", Int64 [1; 0])]))
    by (cbn; intros [H | [H | []]]; discriminate H).
  split; [auto|]. split.
  - exact (proj1 (X7_missing_column_raises_KeyError _) H1).
  - exact (proj2 (X7_missing_column_raises_KeyError _) H2 H3).
Defined.

End Together.

(** ** Bounds on the weights *)
Section Bounds.
Import Py Pd Binary64.


Lemma compare_cont_le (p q : positive) :
  Zpos p <= Zpos q -> Pos.compare_cont Eq p q <> Gt.
Proof. intros H. apply Pos.compare_le_iff. lia. Qed.

(** A normal binary64 number [p * 2^e] is at least [2^(e + 52)]. *)
Lemma leb_pow2 (x : float) (p : positive) (e k : Z) :
  Prim2SF x = S754_finite false p e -> -1074 < e -> k <= e + 52 ->
  SFleb (S754_finite false 4503599627370496 (k - 52)) (Prim2SF x) = true.
Proof.
  intros E Hs Hk. destruct (valid_finite x false p e E) as (He & Hd & Hn).
  rewrite E. unfold SFleb, SFcompare.
  destruct (Z.compare_spec (k - 52) e) as [Heq | Hlt | Hgt]; [|reflexivity | lia].
  assert (Hd53 : Zdigits2 (Zpos p) = 53) by (apply Hn; lia).
  pose proof (Zdigits2_bounds p) as [Hlo _]. rewrite Hd53 in Hlo.
  change (2 ^ (53 - 1)) with (Zpos 4503599627370496) in Hlo.
  pose proof (compare_cont_le _ _ Hlo) as Hc.
  destruct (Pos.compare_cont Eq 4503599627370496 p); congruence.
Qed.

(** The rounding of a mantissa below [2^(-e)], that is of a number below one,
    is at most one. *)
Lemma rounding_below_one (s : bool) (m p : positive) (e e' : Z) (l : location) :
  -1074 <= e -> Zpos m < 2 ^ (- e) ->
  binary_round_aux prec emax s (Zpos m) e l = S754_finite s p e' ->
  Zpos p <= 2 ^ (- e').
Proof.
  intros He Hm. rewrite binary_round_aux_spec by assumption.
  destruct (final_mantissa (Zpos m) l) as [|q|q] eqn:F; try discriminate.
  destruct (e + exponent_shift (Zpos m) l <=? 971); try discriminate.
  intros H. injection H as -> <-.
  unfold final_mantissa in F. unfold exponent_shift.
  pose proof (rounded_bounds m l) as Hr.
  pose proof (Zdigits2_pos m) as Hd1.
  assert (Hdm : Zdigits2 (Zpos m) <= - e).
  { apply Zdigits2_le; [assumption|].
    destruct (Z.le_gt_cases 0 (- e)) as [H | H]; [assumption|].
    rewrite Z.pow_neg_r in Hm by lia. lia. }
  set (k1 := Z.max (Zdigits2 (Zpos m) - 53) 0) in *.
  assert (Hk1 : 0 <= k1 <= - e) by lia.
  assert (Hsh : shr_m (shifted (Zpos m) l) < 2 ^ (- e - k1)).
  { rewrite shifted_m by lia. fold k1.
    apply Z.div_lt_upper_bound; [apply Z.pow_pos_nonneg; lia|].
    rewrite <- Z.pow_add_r by lia. now replace (k1 + (- e - k1)) with (- e) by lia. }
  assert (Hrd : rounded (Zpos m) l <= 2 ^ (- e - k1)).
  { unfold rounded.
    pose proof (round_nearest_even_bounds (shr_m (shifted (Zpos m) l))
                  (loc_of_shr_record (shifted (Zpos m) l))). lia. }
  destruct (rounded (Zpos m) l) as [|r|r] eqn:R; try lia.
  rewrite shifted_m in F by lia.
  set (k2 := Z.max (Zdigits2 (Zpos r) - 53) 0) in *.
  assert (Hk2 : 0 <= k2 <= - e - k1).
  { pose proof (Zdigits2_bounds r) as [Hlo _].
    assert (Zdigits2 (Zpos r) - 1 <= - e - k1).
    { apply (Z.pow_le_mono_r_iff 2); lia. }
    lia. }
  replace (- (e + (k1 + k2))) with (- e - k1 - k2) by lia.
  rewrite <- F. apply Z.div_le_upper_bound; [apply Z.pow_pos_nonneg; lia|].
  rewrite <- Z.pow_add_r by lia. now replace (k2 + (- e - k1 - k2)) with (- e - k1) by lia.
Qed.

(** [1 - g] for [g] in (0, 1) is the rounding of a number below one. *)
Lemma one_minus_as_rounding (g : float) :
  (0 <? g)%float = true -> (g <? 1)%float = true ->
  exists mz ez,
    Prim2SF (1 - g)%float = binary_round_aux prec emax false (Zpos mz) ez loc_Exact
    /\ -1074 <= ez /\ Zpos mz < 2 ^ (- ez).
Proof.
  intros H0 H1. destruct (below_one g H0 H1) as (m & e & E & He).
  destruct (valid_finite g false m e E) as (Hb & Hd & _).
  pose proof (Zdigits2_bounds m) as [_ Hm].
  rewrite sub_spec, Prim2SF_one, E. unfold SF64sub, SFsub. cbn [cond_Zopp].
  destruct (shl_align_spec 4503599627370496 (-52) (Z.min (-52) e)) as (a & -> & Ha).
  destruct (shl_align_spec m e (Z.min (-52) e)) as (b & -> & Hb').
  cbn [fst]. rewrite Ha, Hb'.
  replace (Z.min (-52) (Z.min (-52) e)) with e by lia.
  replace (Z.min e (Z.min (-52) e)) with e by lia.
  replace (Z.min (-52) e) with e by lia.
  rewrite Z.sub_diag, Z.mul_1_r.
  change (Zpos 4503599627370496) with (2 ^ 52). rewrite <- Z.pow_add_r by lia.
  replace (52 + (-52 - e)) with (- e) by lia.
  assert (Hlt : Zpos m < 2 ^ (- e)).
  { apply Z.lt_le_trans with (2 ^ Zdigits2 (Zpos m)); [assumption|].
    apply Z.pow_le_mono_r; lia. }
  destruct (2 ^ (- e) - Zpos m) as [|D|D] eqn:ED; try lia.
  cbn [binary_normalize]. unfold binary_round.
  destruct (shl_align_spec D e (fexp prec emax (Zpos (digits2_pos D) + e)))
    as (mz & -> & Hmz).
  set (ez := Z.min e (fexp prec emax (Zpos (digits2_pos D) + e))) in *.
  assert (Hez : -1074 <= ez <= e) by (unfold ez; rewrite fexp_eq; lia).
  exists mz, ez. split; [reflexivity|]. split; [lia|].
  rewrite Hmz. replace (- ez) with (- e + (e - ez)) by lia.
  rewrite Z.pow_add_r by lia.
  apply Z.mul_lt_mono_pos_r; [apply Z.pow_pos_nonneg; lia | lia].
Qed.

(** The conditional probability of a row with a score in (0, 1) is a positive
    finite number of at most one: [m * 2^e] with [m <= 2^(-e)]. *)
Lemma conditional_probability_at_most_one (a : Z) (x : float) :
  (0 <? x)%float = true -> (x <? 1)%float = true ->
  exists m e,
    Prim2SF (RowFormulas.conditional_probability a x) = S754_finite false m e
    /\ Zpos m <= 2 ^ (- e).
Proof.
  intros H0 H1. unfold RowFormulas.conditional_probability. destruct (a =? 1).
  - destruct (below_one x H0 H1) as (m & e & E & He). exists m, e. split; [assumption|].
    destruct (valid_finite x false m e E) as (_ & Hd & _).
    pose proof (Zdigits2_bounds m) as [_ Hm].
    apply Z.le_trans with (2 ^ Zdigits2 (Zpos m)); [lia|].
    apply Z.pow_le_mono_r; lia.
  - destruct (one_minus_as_rounding x H0 H1) as (mz & ez & E & Hez & Hmz).
    destruct (one_minus_rounding x H0 H1) as (p & e & E' & _).
    exists p, e. split; [assumption|].
    rewrite E in E'. now apply (rounding_below_one false mz p ez e loc_Exact).
Qed.

(** [1 / c] and [0.5 / c] for a positive [c = m * 2^e] of at most one, in
    closed form. *)
Lemma quotients_in_closed_form (c : float) (m : positive) (e : Z) :
  Prim2SF c = S754_finite false m e -> Zpos m <= 2 ^ (- e) ->
  exists q k,
    (Prim2SF (1 / c)%float
     = if k - 52 <=? 971 then S754_finite false q (k - 52) else S754_infinity false)
    /\ (Prim2SF (0.5 / c)%float
        = if k - 53 <=? 971 then S754_finite false q (k - 53) else S754_infinity false)
    /\ 0 <= k.
Proof.
  intros E Hle. destruct (valid_finite c false m e E) as (He & Hd & Hn).
  pose proof (Zdigits2_bounds m) as [Hlo Hhi].
  set (d := Zdigits2 (Zpos m)) in *.
  assert (Hde : d + e <= 1).
  { assert (d - 1 <= - e); [|lia].
    apply (Z.pow_le_mono_r_iff 2); [lia | | lia].
    destruct (Z.le_gt_cases 0 (- e)) as [H | H]; [assumption|].
    rewrite Z.pow_neg_r in Hle by lia. lia. }
  assert (He52 : e <= -52) by lia.
  rewrite !div_spec, Prim2SF_half, Prim2SF_one, E. unfold SF64div, SFdiv.
  rewrite (SFdiv_core_pow2 (-52) m e d) by (rewrite ?fexp_eq; lia).
  rewrite (SFdiv_core_pow2 (-53) m e d) by (rewrite ?fexp_eq; lia).
  destruct (quotient_pos m d) as [q Hq]; [lia | lia |]. rewrite Hq.
  cbn [xorb].
  set (l := new_location (Zpos m) (Z.shiftl 4503599627370496 d mod Zpos m)).
  rewrite !binary_round_aux_spec by lia.
  destruct (final_mantissa_pos q l) as [p ->].
  pose proof (exponent_shift_bounds q l) as Hsh.
  exists p, (- e - d + exponent_shift (Zpos q) l).
  replace (-52 - e - d + exponent_shift (Zpos q) l)
    with (- e - d + exponent_shift (Zpos q) l - 52) by lia.
  replace (-53 - e - d + exponent_shift (Zpos q) l)
    with (- e - d + exponent_shift (Zpos q) l - 53) by lia.
  split; [reflexivity|]. split; [reflexivity|].
  destruct (Z.eq_dec (d + e) 1) as [H1 | H1]; [|lia].
  assert (Hm : Zpos m = 2 ^ (d - 1)).
  { replace (- e) with (d - 1) in Hle by lia. lia. }
  assert (Hq53 : Zpos q = 2 ^ 53).
  { rewrite <- Hq, Z.shiftl_mul_pow2, Hm by lia.
    change 4503599627370496 with (2 ^ 52). rewrite <- Z.pow_add_r by lia.
    replace (52 + d) with (53 + (d - 1)) by lia.
    rewrite Z.pow_add_r by lia. apply Z.div_mul. 
    apply Z.pow_nonzero; lia. }
  assert (Zdigits2 (Zpos q) = 54).
  { rewrite Zdigits2_log2, Hq53, Z.log2_pow2; lia. }
  lia.
Qed.

(** For a propensity score in (0, 1) the raw weight is at least 1 and the
    stabilized weight lies between 0.5 and the raw weight. *)
Lemma weight_bounds (a : Z) (x : float) :
  (0 <? x)%float = true -> (x <? 1)%float = true ->
  (1 <=? RowFormulas.raw_weight a x)%float = true
  /\ (0.5 <=? RowFormulas.stabilized_weight a x)%float = true
  /\ (RowFormulas.stabilized_weight a x <=? RowFormulas.raw_weight a x)%float = true.
Proof.
  intros H0 H1.
  destruct (conditional_probability_at_most_one a x H0 H1) as (m & e & E & Hle).
  destruct (quotients_in_closed_form _ m e E Hle) as (q & k & Hraw & Hstab & Hk).
  unfold RowFormulas.raw_weight, RowFormulas.stabilized_weight.
  rewrite marginal_probability_half, !leb_spec, Prim2SF_one, Prim2SF_half.
  set (raw := (1 / RowFormulas.conditional_probability a x)%float) in *.
  set (stab := (0.5 / RowFormulas.conditional_probability a x)%float) in *.
  split; [|split].
  - destruct (k - 52 <=? 971) eqn:L; [|now rewrite Hraw].
    change (-52) with (0 - 52). apply (leb_pow2 raw q (k - 52)); [assumption | lia | lia].
  - destruct (k - 53 <=? 971) eqn:L; [|now rewrite Hstab].
    change (-53) with (-1 - 52). apply (leb_pow2 stab q (k - 53)); [assumption | lia | lia].
  - rewrite Hraw, Hstab.
    destruct (k - 52 <=? 971) eqn:L.
    + replace (k - 53 <=? 971) with true by (symmetry; apply Z.leb_le; apply Z.leb_le in L; lia).
      unfold SFleb, SFcompare.
      destruct (Z.compare_spec (k - 53) (k - 52)); [lia | reflexivity | lia].
    + destruct (k - 53 <=? 971); reflexivity.
Qed.

(** X8: when every propensity score lies strictly between 0 and 1, every raw
    weight is at least 1 and every stabilized weight lies between 0.5 and the
    raw weight of its row (an overflowed weight, infinity, included). *)
Theorem X8_weights_are_bounded (ids A : list Z) (g : list float) :
  List.length ids = List.length A -> List.length g = List.length A ->
  Forall (fun x => (0 <? x)%float = true /\ (x <? 1)%float = true) g ->
  exists df s,
    ScenarioB.weights (cohort ids A g) = Ok (df, s)
    /\ forall i a x,
        nth_error A i = Some a -> nth_error g i = Some x ->
        exists raw stab,
          float_cell df "Raw IPTW" i = Some raw
          /\ float_cell df "Stabilized IPTW" i = Some stab
          /\ (1 <=? raw)%float = true
          /\ (0.5 <=? stab)%float = true
          /\ (stab <=? raw)%float = true.
Proof.
  intros Hi Hg Hr.
  exists (weighted ids A g), (cohort_sum A g).
  split; [now apply weights_cohort|].
  intros i a x Ha Hx.
  destruct (cells_of_row ids A g i a x Ha Hx) as (_ & Hraw & _ & Hstab).
  exists (RowFormulas.raw_weight a x), (RowFormulas.stabilized_weight a x).
  split; [exact Hraw|]. split; [exact Hstab|].
  rewrite Forall_forall in Hr.
  destruct (Hr x (nth_error_In _ _ Hx)) as [H0 H1].
  now apply weight_bounds.
Qed.

(** Row 3 of the program: raw weight 10.000000000000002, stabilized weight
    5.000000000000001. *)
Lemma X8_weights_are_bounded_witness :
  (List.length [1; 2; 3; 4] = List.length [1; 1; 0; 0]
   /\ List.length [0.8; 0.4; 0.9; 0.2]%float = List.length [1; 1; 0; 0]
   /\ Forall (fun x => (0 <? x)%float = true /\ (x <? 1)%float = true)
             [0.8; 0.4; 0.9; 0.2]%float)
  /\ exists df s raw stab,
      ScenarioB.weights ScenarioB.data = Ok (df, s)
      /\ float_cell df "Raw IPTW" 2 = Some raw
      /\ float_cell df "Stabilized IPTW" 2 = Some stab
      /\ (1 <=? raw)%float = true
      /\ (0.5 <=? stab)%float = true
      /\ (stab <=? raw)%float = true.
Proof.
  assert (Hr : Forall (fun x => (0 <? x)%float = true /\ (x <? 1)%float = true)
                      [0.8; 0.4; 0.9; 0.2]%float)
    by (repeat constructor).
  split; [repeat split; try reflexivity; exact Hr|].
  destruct (X8_weights_are_bounded [1; 2; 3; 4] [1; 1; 0; 0] [0.8; 0.4; 0.9; 0.2]%float
              eq_refl eq_refl Hr) as (df & s & Hw & Hrows).
  destruct (Hrows 2%nat 0 0.9%float eq_refl eq_refl)
    as (raw & stab & H1 & H2 & H3 & H4 & H5).
  exists df, s, raw, stab. auto 10.
Defined.

Lemma nan_to_zero_twice (x : float) : nan_to_zero (nan_to_zero x) = nan_to_zero x.
Proof.
  unfold nan_to_zero. destruct (is_nan x) eqn:E; [reflexivity | now rewrite E].
Qed.

(** X9: a NaN propensity score is not rejected.  The row gets the
    conditional probability, raw weight and stabilized weight NaN, which the
    results file shows as empty fields, and the cohort sum counts the row as
    zero. *)
Theorem X9_nan_score_flows_through
        (ids A : list Z) (g : list float) (i : nat) (a : Z) :
  List.length ids = List.length A -> List.length g = List.length A ->
  nth_error A i = Some a -> nth_error g i = Some nan ->
  exists df s stab,
    ScenarioB.weights (cohort ids A g) = Ok (df, s)
    /\ float_cell df "P(A|L)" i = Some nan
    /\ float_cell df "Raw IPTW" i = Some nan
    /\ float_cell df "Stabilized IPTW" i = Some nan
    /\ csv_float (Fixed 4) nan = ""
    /\ getitem df "Stabilized IPTW" = Ok (Float64 stab)
    /\ sum (Float64 stab) = Ok s
    /\ sum (Float64 (map nan_to_zero stab)) = Ok s.
Proof.
  intros Hi Hg Ha Hx.
  exists (weighted ids A g), (cohort_sum A g),
         (zip_with RowFormulas.stabilized_weight A g).
  split; [now apply weights_cohort|].
  destruct (cells_of_row ids A g i a nan Ha Hx) as (Hc & Hraw & _ & Hstab).
  assert (En : RowFormulas.conditional_probability a nan = nan)
    by (unfold RowFormulas.conditional_probability; destruct (a =? 1); reflexivity).
  unfold RowFormulas.raw_weight, RowFormulas.stabilized_weight in *.
  rewrite marginal_probability_half, En in *.
  split; [exact Hc|]. split; [exact Hraw|]. split; [exact Hstab|].
  split; [reflexivity|]. split; [reflexivity|]. split; [reflexivity|].
  cbn [sum]. unfold cohort_sum, sum_values.
  rewrite length_map, map_map. do 2 f_equal.
  apply map_ext. intros y. apply nan_to_zero_twice.
Qed.

(** A NaN score between two ordinary rows. *)
Lemma X9_nan_score_flows_through_witness :
  (List.length [1; 2; 3] = List.length [1; 0; 1]
   /\ List.length [0.5; nan; 0.25]%float = List.length [1; 0; 1]
   /\ nth_error [1; 0; 1] 1 = Some 0
   /\ nth_error [0.5; nan; 0.25]%float 1 = Some nan)
  /\ exists df s,
      ScenarioB.weights (cohort [1; 2; 3] [1; 0; 1] [0.5; nan; 0.25]%float) = Ok (df, s)
      /\ float_cell df "Raw IPTW" 1 = Some nan
      /\ float_cell df "Stabilized IPTW" 1 = Some nan
      /\ s = 3%float.
Proof.
  split; [repeat split; reflexivity|].
  destruct (X9_nan_score_flows_through [1; 2; 3] [1; 0; 1] [0.5; nan; 0.25]%float
              1%nat 0 eq_refl eq_refl eq_refl eq_refl)
    as (df & s & stab & Hw & _ & Hr & Hs & _ & _ & _ & _).
  exists df, s. split; [exact Hw|]. split; [exact Hr|]. split; [exact Hs|].
  pose proof (weights_cohort [1; 2; 3] [1; 0; 1] [0.5; nan; 0.25]%float
                eq_refl eq_refl) as Hw'.
  rewrite Hw in Hw'. injection Hw' as _ ->. reflexivity.
Defined.

End Bounds.
(** ** The shape of the numbers and of the rows *)
Section Shapes.
Import Py Pd.

Lemma length_append (a b : string) :
  String.length (a ++ b) = (String.length a + String.length b)%nat.
Proof. induction a as [|c a IH]; simpl; [reflexivity | now rewrite IH]. Qed.

Lemma all_chars_append (P : ascii -> bool) (a b : string) :
  all_chars P (a ++ b) = all_chars P a && all_chars P b.
Proof.
  induction a as [|c a IH]; simpl; [reflexivity|].
  now rewrite IH, andb_assoc.
Qed.

Lemma all_chars_weaken (P Q : ascii -> bool) (s : string) :
  (forall c, P c = true -> Q c = true) ->
  all_chars P s = true -> all_chars Q s = true.
Proof.
  intros H. induction s as [|c s IH]; simpl; [reflexivity|].
  rewrite !andb_true_iff. intros [Hc Hs]. auto.
Qed.

Lemma all_chars_substring (P : ascii -> bool) (s : string) (i k : nat) :
  all_chars P s = true -> all_chars P (substring i k s) = true.
Proof.
  revert i k; induction s as [|c s IH]; intros [|i] [|k] H; simpl in *;
    try reflexivity; apply andb_true_iff in H as [Hc Hs]; auto.
  rewrite Hc. simpl. auto.
Qed.

Lemma length_substring (s : string) (i k : nat) :
  (i + k <= String.length s)%nat -> String.length (substring i k s) = k.
Proof.
  revert i k; induction s as [|c s IH]; intros [|i] [|k] H; simpl in *;
    try reflexivity; try lia.
  - f_equal. apply (IH 0%nat). lia.
  - apply IH. lia.
  - apply IH. lia.
Qed.

Lemma zeros_digits (k : nat) :
  all_chars is_digit (zeros k) = true /\ String.length (zeros k) = k.
Proof. induction k as [|k [IH1 IH2]]; simpl; [auto|]. now rewrite IH1, IH2. Qed.

Lemma string_of_uint_digits (d : Decimal.uint) :
  all_chars is_digit (NilEmpty.string_of_uint d) = true.
Proof. induction d; simpl; auto. Qed.

(** [str] of an integer that is not negative is a nonempty string of
    digits; [str] of any integer has digits and at most a sign. *)
Lemma str_int_digits (n : Z) :
  0 <= n ->
  all_chars is_digit (str_int n) = true /\ (1 <= String.length (str_int n))%nat.
Proof.
  intros Hn. unfold str_int.
  destruct n as [|p|p]; [split; [reflexivity | simpl; lia] | | lia].
  cbn [Z.to_int NilZero.string_of_int]. unfold NilZero.string_of_uint.
  pose proof (string_of_uint_digits (Pos.to_uint p)) as Hd.
  destruct (Pos.to_uint p) eqn:E; simpl in *; split; solve [assumption | reflexivity | lia].
Qed.

Lemma str_int_number_chars (n : Z) : all_chars is_number_char (str_int n) = true.
Proof.
  assert (W : forall c, is_digit c = true -> is_number_char c = true)
    by (intros c H; unfold is_number_char; now rewrite H).
  destruct (Z.le_gt_cases 0 n) as [H | H].
  - apply (all_chars_weaken is_digit); [exact W | now apply str_int_digits].
  - destruct n as [|p|p]; try lia.
    unfold str_int. cbn [Z.to_int NilZero.string_of_int all_chars].
    replace (is_number_char "-") with true by reflexivity. cbn [andb].
    apply (all_chars_weaken is_digit); [exact W|].
    unfold NilZero.string_of_uint.
    pose proof (string_of_uint_digits (Pos.to_uint p)) as Hd.
    destruct (Pos.to_uint p); simpl in *; auto.
Qed.

Lemma round_half_even_nonneg (num den : Z) :
  0 <= num -> 0 < den -> 0 <= round_half_even num den.
Proof.
  intros Hn Hd. unfold round_half_even.
  assert (0 <= num / den) by (apply Z.div_pos; lia).
  destruct (2 * (num mod den) ?= den); [destruct (Z.even (num / den))| |]; lia.
Qed.

Lemma scaled_nonneg (m : positive) (e k : Z) :
  0 <= scaled_num (Zpos m) e k /\ 0 < scaled_den e k.
Proof.
  unfold scaled_num, scaled_den.
  assert (0 < 2 ^ Z.max e 0) by (apply Z.pow_pos_nonneg; lia).
  assert (0 < 10 ^ Z.max k 0) by (apply Z.pow_pos_nonneg; lia).
  assert (0 < 2 ^ Z.max (- e) 0) by (apply Z.pow_pos_nonneg; lia).
  assert (0 < 10 ^ Z.max (- k) 0) by (apply Z.pow_pos_nonneg; lia).
  split; nia.
Qed.

(** The digits of a fixed-point rendering: at least one before the point,
    exactly [p] after it. *)
Lemma fixed_digits (p : nat) (n : Z) :
  0 <= n ->
  let ds := rjust0 (S p) (str_int n) in
  let i := (String.length ds - p)%nat in
  all_chars is_digit (substring 0 i ds) = true
  /\ (1 <= String.length (substring 0 i ds))%nat
  /\ all_chars is_digit (substring i p ds) = true
  /\ String.length (substring i p ds) = p.
Proof.
  intros Hn ds i.
  destruct (str_int_digits n Hn) as [Hd Hl].
  destruct (zeros_digits (S p - String.length (str_int n))) as [Hz Hzl].
  assert (Hds : all_chars is_digit ds = true)
    by (unfold ds, rjust0; now rewrite all_chars_append, Hz, Hd).
  assert (Hlen : (S p <= String.length ds)%nat)
    by (unfold ds, rjust0; rewrite length_append, Hzl; lia).
  repeat split.
  - now apply all_chars_substring.
  - rewrite length_substring by lia. lia.
  - now apply all_chars_substring.
  - apply length_substring. lia.
Qed.


Lemma digit_is_number_char (c : ascii) : is_digit c = true -> is_number_char c = true.
Proof. intros H. unfold is_number_char. now rewrite H. Qed.

Lemma is_finite_cases (x : float) :
  PrimFloat.is_finite x = true ->
  (exists s, Prim2SF x = S754_zero s) \/ (exists s m e, Prim2SF x = S754_finite s m e).
Proof.
  unfold PrimFloat.is_finite, PrimFloat.is_nan, PrimFloat.is_infinity.
  rewrite !eqb_spec, abs_spec. change (Prim2SF infinity) with (S754_infinity false).
  destruct (Prim2SF x) as [s | [|] | | s m e]; try (vm_compute; discriminate); eauto.
Qed.

(** X10: a finite number formatted with [p] decimals, [p] at least one, is an
    optional minus sign, at least one digit, a point and exactly [p] digits:
    never an exponent, never a missing leading zero. *)
Theorem X10_fixed_point_shape (p : nat) (x : float) :
  p <> 0%nat -> PrimFloat.is_finite x = true ->
  exists sgn ip fp,
    format_fixed p x = sgn ++ ip ++ "." ++ fp
    /\ (sgn = "" \/ sgn = "-")
    /\ all_chars is_digit ip = true /\ (1 <= String.length ip)%nat
    /\ all_chars is_digit fp = true /\ String.length fp = p.
Proof.
  intros Hp Hx. unfold format_fixed.
  apply Nat.eqb_neq in Hp. rewrite Hp.
  assert (Hs : forall s, sign_str s = "" \/ sign_str s = "-")
    by (intros [|]; [now right | now left]).
  destruct (is_finite_cases x Hx) as [[s E] | (s & m & e & E)]; rewrite E.
  - exists (sign_str s), "0", (zeros p).
    destruct (zeros_digits p) as [Hz Hl]. repeat split; auto.
  - destruct (scaled_nonneg m e (Z.of_nat p)) as [Hn Hd].
    destruct (fixed_digits p _ (round_half_even_nonneg _ _ Hn Hd)) as (H1 & H2 & H3 & H4).
    cbv zeta. eexists (sign_str s), _, _. repeat split; eauto.
Qed.

Lemma X10_fixed_point_shape_witness :
  exists sgn ip fp,
    format_fixed 4 (-10.00004)%float = sgn ++ ip ++ "." ++ fp
    /\ (sgn = "" \/ sgn = "-")
    /\ all_chars is_digit ip = true /\ (1 <= String.length ip)%nat
    /\ all_chars is_digit fp = true /\ String.length fp = 4%nat.
Proof. apply X10_fixed_point_shape; [discriminate | reflexivity]. Defined.

(** Whatever the number, its rendering holds nothing the [csv] writer
    would quote. *)
Lemma format_fixed_number_chars (p : nat) (x : float) :
  all_chars is_number_char (format_fixed p x) = true.
Proof.
  unfold format_fixed.
  assert (Hs : forall s, all_chars is_number_char (sign_str s) = true) by (now intros [|]).
  assert (Hz : forall k, all_chars is_number_char (zeros k) = true).
  { intros k. apply (all_chars_weaken is_digit); [exact digit_is_number_char|].
    apply zeros_digits. }
  destruct (Prim2SF x) as [s | s | | s m e]; [ | | reflexivity | ].
  - rewrite all_chars_append, Hs. destruct (Nat.eqb p 0); simpl; auto.
  - now rewrite all_chars_append, Hs.
  - cbv zeta.
    set (ds := rjust0 (S p) _).
    assert (Hds : all_chars is_number_char ds = true).
    { unfold ds, rjust0. now rewrite all_chars_append, Hz, str_int_number_chars. }
    rewrite !all_chars_append, Hs, all_chars_substring by exact Hds.
    destruct (Nat.eqb p 0); [reflexivity|].
    simpl. now apply all_chars_substring.
Qed.

Lemma csv_float_fixed_number_chars (p : nat) (x : float) :
  all_chars is_number_char (csv_float (Fixed p) x) = true.
Proof.
  unfold csv_float. destruct (is_nan x); [reflexivity | apply format_fixed_number_chars].
Qed.

Lemma number_chars_unquoted (s : string) :
  all_chars is_number_char s = true -> csv_field s = s /\ count_char "," s = 0%nat.
Proof.
  intros H. unfold csv_field, needs_quote.
  assert (G : existsb (fun c => Ascii.eqb c "," || Ascii.eqb c dquote
                    || Ascii.eqb c (ascii_of_nat 10) || Ascii.eqb c (ascii_of_nat 13))
          (list_ascii_of_string s) = false /\ count_char "," s = 0%nat).
  { induction s as [|c s IH]; [split; reflexivity|].
    simpl in H. apply andb_true_iff in H as [Hc Hs].
    destruct (IH Hs) as [IH1 IH2]. cbn [list_ascii_of_string existsb count_char].
    rewrite IH1, IH2.
    assert (E : forall d, is_number_char d = false -> Ascii.eqb c d = false).
    { intros d Hd. destruct (Ascii.eqb_spec c d) as [->|]; [congruence | reflexivity]. }
    rewrite !E by reflexivity. split; reflexivity. }
  destruct G as [G1 G2]. now rewrite G1.
Qed.

Lemma count_char_append (c : ascii) (a b : string) :
  count_char c (a ++ b) = (count_char c a + count_char c b)%nat.
Proof. induction a as [|d a IH]; simpl; [reflexivity | rewrite IH; lia]. Qed.

Lemma nth_number_chars {X : Type} (f : X -> string) (l : list X) (i : nat) :
  (forall x, all_chars is_number_char (f x) = true) ->
  all_chars is_number_char (nth i (map f l) "") = true.
Proof.
  intros H. revert i; induction l as [|x l IH]; intros [|i]; simpl; auto.
Qed.

(** X11: whatever the cohort, the table Scenario B writes is rectangular:
    the header, then one row per patient, each of five unquoted fields
    (four commas, and otherwise only the characters of numbers). *)
Theorem X11_results_table_is_rectangular (ids A : list Z) (g : list float) :
  List.length A = List.length ids -> List.length g = List.length ids ->
  exists rows,
    to_csv (reported ids A g) (Fixed 4) = unlines (header_B :: rows)
    /\ List.length rows = List.length ids
    /\ Forall (fun r => count_char "," r = 4%nat
                        /\ all_chars (fun c => is_number_char c || Ascii.eqb c ",") r = true)
              rows.
Proof.
  intros _ _. eexists. split; [reflexivity|]. split.
  - now rewrite length_map, length_seq.
  - apply Forall_forall. intros r Hr. apply in_map_iff in Hr as (i & <- & _).
    unfold csv_row. cbn [map reported snd csv_cells join].
    pose proof (nth_number_chars str_int ids i str_int_number_chars) as H1.
    pose proof (nth_number_chars str_int A i str_int_number_chars) as H2.
    pose proof (nth_number_chars (csv_float (Fixed 4)) g i
                  (csv_float_fixed_number_chars 4)) as H3.
    pose proof (nth_number_chars (csv_float (Fixed 4))
                  (zip_with RowFormulas.raw_weight A g) i
                  (csv_float_fixed_number_chars 4)) as H4.
    pose proof (nth_number_chars (csv_float (Fixed 4))
                  (zip_with RowFormulas.stabilized_weight A g) i
                  (csv_float_fixed_number_chars 4)) as H5.
    assert (W : forall s, all_chars is_number_char s = true ->
                all_chars (fun c => is_number_char c || Ascii.eqb c ",") s = true).
    { intros s. apply all_chars_weaken. intros c ->. reflexivity. }
    destruct (number_chars_unquoted _ H1) as [-> C1].
    destruct (number_chars_unquoted _ H2) as [-> C2].
    destruct (number_chars_unquoted _ H3) as [-> C3].
    destruct (number_chars_unquoted _ H4) as [-> C4].
    destruct (number_chars_unquoted _ H5) as [-> C5].
    split.
    + rewrite !count_char_append, C1, C2, C3, C4, C5. reflexivity.
    + rewrite !all_chars_append.
      rewrite (W _ H1), (W _ H2), (W _ H3), (W _ H4), (W _ H5). reflexivity.
Qed.

Lemma X11_results_table_is_rectangular_witness :
  exists rows,
    to_csv (reported [7; 8] [1; 0] [0.25; nan]%float) (Fixed 4) = unlines (header_B :: rows)
    /\ List.length rows = 2%nat
    /\ Forall (fun r => count_char "," r = 4%nat
                        /\ all_chars (fun c => is_number_char c || Ascii.eqb c ",") r = true)
              rows.
Proof. apply (X11_results_table_is_rectangular [7; 8] [1; 0]); reflexivity. Defined.

End Shapes.
(** ** The weights on a table with more columns *)
Section Frames.
Import Py Pd.

Lemma getitem_replace_same (df : DataFrame) (key : string) (s : Series) :
  getitem (replace_column df key s) key = Ok s.
Proof.
  induction df as [|[k s'] df IH]; simpl.
  - now rewrite String.eqb_refl.
  - destruct (String.eqb k key) eqn:E; simpl; now rewrite E.
Qed.

Lemma getitem_replace_other (df : DataFrame) (key key' : string) (s : Series) :
  key <> key' -> getitem (replace_column df key s) key' = getitem df key'.
Proof.
  intros Hk. induction df as [|[k s'] df IH]; simpl.
  - apply String.eqb_neq in Hk. now rewrite Hk.
  - destruct (String.eqb_spec k key) as [-> | Hne]; simpl.
    + apply String.eqb_neq in Hk. now rewrite Hk.
    + now rewrite IH.
Qed.

Lemma nrows_replace_column (df : DataFrame) (key : string) (s : Series) :
  size s = nrows df -> nrows (replace_column df key s) = nrows df.
Proof.
  destruct df as [|[k s'] df]; simpl; [auto|].
  destruct (String.eqb k key); simpl; auto.
Qed.

Lemma setitem_returns (df : DataFrame) (key : string) (s : Series) :
  size s = nrows df -> setitem df key s = Ok (replace_column df key s).
Proof. intros H. unfold setitem. now rewrite H, Nat.eqb_refl. Qed.

(** In a frame [pd.DataFrame] accepted, every column has the length of the
    index. *)
Lemma getitem_size (df : DataFrame) (key : string) (s : Series) :
  mk_DataFrame df = Ok df -> getitem df key = Ok s -> size s = nrows df.
Proof.
  unfold mk_DataFrame.
  destruct (forallb _ df) eqn:E; [intros _ | discriminate].
  rewrite forallb_forall in E. generalize (nrows df) E. clear E. intros n E.
  induction df as [|[k s'] df IH]; simpl; [discriminate|].
  destruct (String.eqb k key).
  - intros [= <-]. apply Nat.eqb_eq, (E (k, s')). now left.
  - apply IH. intros c Hc. apply E. now right.
Qed.

(** The weights step on any frame that has the two columns it reads. *)
Lemma weights_on_frame (df : DataFrame) (A : list Z) (g : list float) :
  mk_DataFrame df = Ok df ->
  getitem df "A (Treatment)" = Ok (Int64 A) ->
  getitem df "g (Propensity Score)" = Ok (Float64 g) ->
  ScenarioB.weights df = Ok (with_weights df A g, cohort_sum A g).
Proof.
  intros Hdf HA Hg.
  pose proof (getitem_size _ _ _ Hdf HA) as HnA.
  pose proof (getitem_size _ _ _ Hdf Hg) as Hng.
  cbn [size] in HnA, Hng.
  assert (Hlen : List.length g = List.length A) by congruence.
  unfold with_weights.
  set (pal := zip_with RowFormulas.conditional_probability A g).
  set (raw := zip_with RowFormulas.raw_weight A g).
  set (pa := map RowFormulas.marginal_probability A).
  set (stab := zip_with RowFormulas.stabilized_weight A g).
  set (df1 := replace_column df "P(A|L)" (Float64 pal)).
  set (df2 := replace_column df1 "Raw IPTW" (Float64 raw)).
  set (df3 := replace_column df2 "P(A)" (Float64 pa)).
  assert (L1 : List.length pal = nrows df)
    by (unfold pal; rewrite zip_with_length; congruence).
  assert (L2 : List.length raw = nrows df)
    by (unfold raw; rewrite zip_with_length; congruence).
  assert (L3 : List.length pa = nrows df)
    by (unfold pa; rewrite length_map; congruence).
  assert (L4 : List.length stab = nrows df)
    by (unfold stab; rewrite zip_with_length; congruence).
  assert (N1 : nrows df1 = nrows df) by (now apply nrows_replace_column).
  assert (N2 : nrows df2 = nrows df)
    by (unfold df2; rewrite nrows_replace_column; cbn [size]; congruence).
  assert (N3 : nrows df3 = nrows df)
    by (unfold df3; rewrite nrows_replace_column; cbn [size]; congruence).
  unfold ScenarioB.weights.
  rewrite HA. cbn [bind eq_scalar]. rewrite Hg. cbn [bind as_float rsub].
  unfold np_where. cbn [broadcast bind].
  rewrite !length_map, Hlen, Nat.eqb_refl. cbn [bind].
  rewrite choose_treated by (now rewrite ?length_map).
  rewrite zip_with_combine_map.
  change (zip_with _ A g) with pal.
  rewrite setitem_returns by exact L1. fold df1. cbn [bind].
  unfold df1 at 1. rewrite getitem_replace_same. cbn [rdiv as_float bind].
  replace (map (fun x => (1 / x)%float) pal) with raw
    by (unfold raw, pal; now rewrite map_zip_with).
  rewrite setitem_returns by (cbn [size]; congruence). fold df2. cbn [bind].
  assert (HA2 : getitem df2 "A (Treatment)" = Ok (Int64 A)).
  { unfold df2, df1. rewrite !getitem_replace_other by discriminate. exact HA. }
  rewrite HA2. cbn [bind eq_scalar]. rewrite !length_map.
  rewrite choose_treated by (now rewrite repeat_length).
  rewrite zip_with_combine_repeat. cbn [fst snd].
  change (map _ A) with pa.
  rewrite setitem_returns by (cbn [size]; congruence). fold df3. cbn [bind].
  unfold df3 at 1. rewrite getitem_replace_same. cbn [bind].
  assert (HP : getitem df3 "P(A|L)" = Ok (Float64 pal)).
  { unfold df3, df2. rewrite !getitem_replace_other by discriminate.
    apply getitem_replace_same. }
  rewrite HP. cbn [bind div as_float].
  replace (List.length pa =? List.length pal)%nat with true
    by (symmetry; apply Nat.eqb_eq; congruence).
  replace (zip_with PrimFloat.div pa pal) with stab
    by (unfold stab, pa, pal; now rewrite zip_with_map_l, zip_with_zip_with_r).
  cbn [bind]. rewrite setitem_returns by (cbn [size]; congruence). cbn [bind].
  rewrite getitem_replace_same. reflexivity.
Qed.

(** X12: on any table that has the treatment and the score column, whatever
    else it holds and in whatever order, the weights step adds (or replaces)
    its four columns, computed row by row from treatment and score alone, and
    leaves every other column as it was. *)
Theorem X12_weights_keep_other_columns (df : DataFrame) (A : list Z) (g : list float) :
  mk_DataFrame df = Ok df ->
  getitem df "A (Treatment)" = Ok (Int64 A) ->
  getitem df "g (Propensity Score)" = Ok (Float64 g) ->
  exists df',
    ScenarioB.weights df = Ok (df', cohort_sum A g)
    /\ getitem df' "P(A|L)" = Ok (Float64 (zip_with RowFormulas.conditional_probability A g))
    /\ getitem df' "Raw IPTW" = Ok (Float64 (zip_with RowFormulas.raw_weight A g))
    /\ getitem df' "P(A)" = Ok (Float64 (map RowFormulas.marginal_probability A))
    /\ getitem df' "Stabilized IPTW"
       = Ok (Float64 (zip_with RowFormulas.stabilized_weight A g))
    /\ forall key,
         ~ In key ["P(A|L)"; "Raw IPTW"; "P(A)"; "Stabilized IPTW"] ->
         getitem df' key = getitem df key.
Proof.
  intros Hdf HA Hg. exists (with_weights df A g).
  split; [now apply weights_on_frame|].
  unfold with_weights. repeat split.
  - rewrite !getitem_replace_other by discriminate. apply getitem_replace_same.
  - rewrite !getitem_replace_other by discriminate. apply getitem_replace_same.
  - rewrite !getitem_replace_other by discriminate. apply getitem_replace_same.
  - apply getitem_replace_same.
  - intros key Hkey. cbn [In] in Hkey.
    rewrite !getitem_replace_other; [reflexivity | | | |]; intros E; apply Hkey; auto.
Qed.

(** The score column first, a column of ward names, then the treatment. *)
Lemma X12_weights_keep_other_columns_witness :
  exists df',
    ScenarioB.weights
      [ ("g (Propensity Score)", Float64 [0.25; 0.5]%float);
        ("Ward", Object [OStr "north"; OStr "south"]);
        ("A (Treatment)", Int64 [1; 0]) ]
    = Ok (df', 3%float)
    /\ getitem df' "Raw IPTW" = Ok (Float64 [4; 2]%float)
    /\ getitem df' "Stabilized IPTW" = Ok (Float64 [2; 1]%float)
    /\ getitem df' "Ward" = Ok (Object [OStr "north"; OStr "south"]).
Proof.
  destruct (X12_weights_keep_other_columns
              [ ("g (Propensity Score)", Float64 [0.25; 0.5]%float);
                ("Ward", Object [OStr "north"; OStr "south"]);
                ("A (Treatment)", Int64 [1; 0]) ]
              [1; 0] [0.25; 0.5]%float eq_refl eq_refl eq_refl)
    as (df' & Hw & _ & Hraw & _ & Hstab & Hother).
  exists df'. split; [rewrite Hw; reflexivity|].
  split; [rewrite Hraw; reflexivity|]. split; [rewrite Hstab; reflexivity|].
  rewrite Hother; [reflexivity|].
  cbn [In]. intros [E | [E | [E | [E | []]]]]; discriminate E.
Defined.



End Frames.
(** ** The average predicted probability *)
Section Calibration.
Import Py Pd.

Lemma opposite_sum_is_zero (r : float) :
  PrimFloat.is_finite r = true -> (- r + r)%float = 0%float.
Proof.
  intros Hr. apply Prim2SF_inj.
  rewrite add_spec, opp_spec. change (Prim2SF 0) with (S754_zero false).
  destruct (is_finite_cases r Hr) as [[s E] | (s & m & e & E)]; rewrite E.
  - now destruct s.
  - unfold SF64add. cbn [SFopp SFadd]. rewrite Z.min_id. unfold shl_align. rewrite Z.sub_diag.
    cbn [fst]. replace (cond_Zopp (negb s) (Zpos m) + cond_Zopp s (Zpos m)) with 0
      by (destruct s; cbn [negb cond_Zopp]; lia).
    reflexivity.
Qed.

(** X14: when the bias is the exact opposite of the observed rate, whatever
    finite rate that is, the average predicted probability is exactly zero:
    the sum leaves no rounding residue, the table shows [0.0] and the sentence
    of the file [0.00]. *)
Theorem X14_opposite_bias_gives_exact_zero (rate slope : float) :
  PrimFloat.is_finite rate = true ->
  ScenarioC.average_predicted_prob (- rate) rate = 0%float
  /\ getitem (ScenarioC.interpretation_data (- rate) rate slope) "Result"
     = Ok (Object [OFloat slope; OFloat 0%float; OStr "N/A"])
  /\ format_fixed 2 (ScenarioC.average_predicted_prob (- rate) rate) = "0.00".
Proof.
  intros Hr. unfold ScenarioC.average_predicted_prob.
  rewrite (opposite_sum_is_zero rate Hr). repeat split.
  unfold ScenarioC.interpretation_data, ScenarioC.average_predicted_prob.
  now rewrite (opposite_sum_is_zero rate Hr).
Qed.

(** A rate of one in three. *)
Lemma X14_opposite_bias_gives_exact_zero_witness :
  ScenarioC.average_predicted_prob (- (1 / 3)) (1 / 3) = 0%float
  /\ getitem (ScenarioC.interpretation_data (- (1 / 3)) (1 / 3) 0.5) "Result"
     = Ok (Object [OFloat 0.5%float; OFloat 0%float; OStr "N/A"])
  /\ format_fixed 2 (ScenarioC.average_predicted_prob (- (1 / 3)) (1 / 3)) = "0.00".
Proof. apply (X14_opposite_bias_gives_exact_zero (1 / 3) 0.5). reflexivity. Defined.

End Calibration.
(** ** Treatment codes *)
Section Codes.
Import Py Pd.

Lemma zip_with_ext {X Y W : Type} (f h : X -> Y -> W) (l1 : list X) (l2 : list Y) :
  (forall a b, f a b = h a b) -> zip_with f l1 l2 = zip_with h l1 l2.
Proof.
  intros E. revert l2; induction l1 as [|a l1 IH]; intros [|b l2]; simpl; auto.
  now rewrite E, IH.
Qed.

(** X15: the treatment column is never validated.  A code other than 1 is
    handled as 0: replacing every such code by 0 changes none of the four
    computed columns and not the cohort sum. *)
Theorem X15_codes_other_than_1_count_as_untreated
        (ids A : list Z) (g : list float) :
  List.length ids = List.length A -> List.length g = List.length A ->
  exists df df' s,
    ScenarioB.weights (cohort ids A g) = Ok (df, s)
    /\ ScenarioB.weights (cohort ids (map (fun a => if a =? 1 then 1 else 0) A) g)
       = Ok (df', s)
    /\ forall col, In col ["P(A|L)"; "Raw IPTW"; "P(A)"; "Stabilized IPTW"] ->
                   getitem df' col = getitem df col.
Proof.
  intros Hi Hg.
  set (code := fun a : Z => if a =? 1 then 1 else 0).
  assert (Hc : forall a, (code a =? 1) = (a =? 1))
    by (intros a; unfold code; now destruct (a =? 1)).
  assert (Ep : forall a x, RowFormulas.conditional_probability (code a) x
                           = RowFormulas.conditional_probability a x)
    by (intros a x; unfold RowFormulas.conditional_probability; now rewrite Hc).
  assert (Em : forall a, RowFormulas.marginal_probability (code a)
                         = RowFormulas.marginal_probability a)
    by (intros a; unfold RowFormulas.marginal_probability; now rewrite Hc).
  assert (Er : forall a x, RowFormulas.raw_weight (code a) x = RowFormulas.raw_weight a x)
    by (intros a x; unfold RowFormulas.raw_weight; now rewrite Ep).
  assert (Es : forall a x, RowFormulas.stabilized_weight (code a) x
                           = RowFormulas.stabilized_weight a x)
    by (intros a x; unfold RowFormulas.stabilized_weight; now rewrite Ep, Em).
  exists (weighted ids A g), (weighted ids (map code A) g), (cohort_sum A g).
  split; [now apply weights_cohort|]. split.
  - rewrite weights_cohort by (now rewrite length_map).
    unfold cohort_sum. rewrite zip_with_map_l.
    now rewrite (zip_with_ext _ _ A g Es).
  - intros col Hcol. unfold weighted, cohort.
    rewrite !zip_with_map_l, map_map.
    rewrite (zip_with_ext _ _ A g Ep), (zip_with_ext _ _ A g Er),
      (zip_with_ext _ _ A g Es), (map_ext _ _ Em).
    cbn [In] in Hcol.
    destruct Hcol as [<- | [<- | [<- | [<- | []]]]]; reflexivity.
Qed.

(** Codes 2 and -1 beside 1 and 0. *)
Lemma X15_codes_other_than_1_count_as_untreated_witness :
  exists df df' s,
    ScenarioB.weights (cohort [1; 2; 3; 4] [1; 2; 0; -1] [0.8; 0.4; 0.9; 0.2]%float)
    = Ok (df, s)
    /\ ScenarioB.weights (cohort [1; 2; 3; 4] [1; 0; 0; 0] [0.8; 0.4; 0.9; 0.2]%float)
       = Ok (df', s)
    /\ getitem df' "Stabilized IPTW" = getitem df "Stabilized IPTW".
Proof.
  destruct (X15_codes_other_than_1_count_as_untreated
              [1; 2; 3; 4] [1; 2; 0; -1] [0.8; 0.4; 0.9; 0.2]%float eq_refl eq_refl)
    as (df & df' & s & H1 & H2 & H3).
  exists df, df', s. split; [exact H1|]. split; [exact H2|].
  apply H3. cbn [In]. auto.
Defined.

End Codes.
